(** * Spotnet front-end services: wallet session and contract deployment

    A shallow embedding of [frontend/src/services/wallet.js] and of the
    contract-deployment service exercised by
    [frontend/test/services/contract.test.js], together with the properties
    stated about them.

    Layout:
    - [JSNum]: the fragment of the ECMAScript number library the services call
      ([BigInt(string)], [BigInt.prototype.toString], [Number(string)],
      division of doubles, [Number.prototype.toFixed]);
    - [JS]: dynamically typed values, thrown errors, truthiness;
    - [Effects]: the external collaborators (wallet connector, backend HTTP
      client, browser) as history-dependent oracles, and the monad that threads
      the history of calls and the thrown errors through the code;
    - [WalletService], [ContractService]: the functions themselves;
    - the theorems. *)

From Stdlib Require Import ZArith List String Ascii Bool Lia.
From Stdlib Require Import Floats.SpecFloat.
From Stdlib Require Import Numbers.DecimalString Numbers.DecimalZ Numbers.DecimalFacts.
From Stdlib Require Import Numbers.DecimalPos Numbers.DecimalN.
Import ListNotations.

#[local] Open Scope string_scope.
#[local] Open Scope Z_scope.

(* ===================================================================== *)
(** * The number library *)
(* ===================================================================== *)

Module JSNum.

(** ** Binary64 *)

Definition prec : Z := 53.
Definition emax : Z := 1024.

(** The exponent of the smallest subnormal, -1074. *)
Definition emin64 : Z := emin prec emax.

(** The Number value of a mathematical integer: round to nearest, ties to
    even, as [Number(string)] does on an integer literal. *)
Definition Number_of_Z (z : Z) : spec_float :=
  binary_normalize prec emax z 0 false.

(** [x / y] on Numbers. *)
Definition Number_div (x y : spec_float) : spec_float := SFdiv prec emax x y.

(** [10 ** d] for a small non-negative integer [d]; 10^6 and 10^18 are both
    representable, so the result is exact. *)
Definition Number_pow10 (d : Z) : spec_float := Number_of_Z (10 ^ d).

(** [x > 0]: the relational comparison is false on NaN. *)
Definition Number_gt_zero (x : spec_float) : bool :=
  SFltb (S754_zero false) x.

(** ** Characters *)

Definition is_digit (c : ascii) : bool :=
  let n := N_of_ascii c in ((48 <=? n) && (n <=? 57))%N.

(** A string stands for the JavaScript string whose UTF-8 encoding it is; a
    byte that is part of no well-formed UTF-8 sequence stands for the code
    point of the same number. [code_points] reads the code points off. *)
Definition is_continuation (c : ascii) : bool :=
  let n := N_of_ascii c in ((128 <=? n) && (n <=? 191))%N.

Fixpoint code_points (s : string) : list N :=
  match s with
  | EmptyString => nil
  | String c1 r1 =>
      let b1 := N_of_ascii c1 in
      if (b1 <? 128)%N then cons b1 (code_points r1)
      else
        match r1 with
        | EmptyString => cons b1 (code_points r1)
        | String c2 r2 =>
            let b2 := N_of_ascii c2 in
            if ((194 <=? b1) && (b1 <=? 223))%N && is_continuation c2
            then cons ((b1 - 192) * 64 + (b2 - 128))%N (code_points r2)
            else
              match r2 with
              | EmptyString => cons b1 (code_points r1)
              | String c3 r3 =>
                  let b3 := N_of_ascii c3 in
                  let p3 := ((b1 - 224) * 4096 + (b2 - 128) * 64 + (b3 - 128))%N in
                  if ((224 <=? b1) && (b1 <=? 239))%N
                     && is_continuation c2 && is_continuation c3
                     && (2048 <=? p3)%N
                  then cons p3 (code_points r3)
                  else
                    match r3 with
                    | EmptyString => cons b1 (code_points r1)
                    | String c4 r4 =>
                        let b4 := N_of_ascii c4 in
                        let p4 := ((b1 - 240) * 262144 + (b2 - 128) * 4096
                                   + (b3 - 128) * 64 + (b4 - 128))%N in
                        if ((240 <=? b1) && (b1 <=? 244))%N
                           && is_continuation c2 && is_continuation c3
                           && is_continuation c4
                           && ((65536 <=? p4) && (p4 <=? 1114111))%N
                        then cons p4 (code_points r4)
                        else cons b1 (code_points r1)
                    end
              end
        end
  end.

(** StrWhiteSpaceChar: WhiteSpace (TAB, VT, FF, ZWNBSP U+FEFF and the space
    separators U+0020, U+00A0, U+1680, U+2000 to U+200A, U+202F, U+205F,
    U+3000) and LineTerminator (LF, CR, U+2028, U+2029). *)
Definition is_white (p : N) : bool :=
  ((p =? 9) || (p =? 11) || (p =? 12) || (p =? 65279)
   || (p =? 32) || (p =? 160) || (p =? 5760)
   || ((8192 <=? p) && (p <=? 8202))
   || (p =? 8239) || (p =? 8287) || (p =? 12288)
   || (p =? 10) || (p =? 13) || (p =? 8232) || (p =? 8233))%N.

(** Value of a digit in radix up to 16, [None] when [c] is no digit of it. *)
Definition digit_value (radix : Z) (c : ascii) : option Z :=
  let n := Z.of_N (N_of_ascii c) in
  let v :=
    if (48 <=? n) && (n <=? 57) then Some (n - 48)
    else if (97 <=? n) && (n <=? 102) then Some (n - 87)
    else if (65 <=? n) && (n <=? 70) then Some (n - 55)
    else None in
  match v with
  | Some d => if d <? radix then Some d else None
  | None => None
  end.

Fixpoint parse_radix_acc (radix : Z) (acc : Z) (s : string) : option Z :=
  match s with
  | EmptyString => Some acc
  | String c s' =>
      match digit_value radix c with
      | Some d => parse_radix_acc radix (acc * radix + d) s'
      | None => None
      end
  end.

(** One or more digits of the given radix. *)
Definition parse_radix (radix : Z) (s : string) : option Z :=
  match s with
  | EmptyString => None
  | _ => parse_radix_acc radix 0 s
  end.

(** DecimalDigits: one or more decimal digits, leading zeros allowed. *)
Definition parse_decimal (s : string) : option Z :=
  match s with
  | EmptyString => None
  | _ => option_map Z.of_uint (NilEmpty.uint_of_string s)
  end.

Fixpoint trim_left (l : list N) : list N :=
  match l with
  | cons p l' => if is_white p then trim_left l' else l
  | nil => nil
  end.

(** Drops trailing white space: a character is kept when it is not white or
    when something non-white follows it. *)
Fixpoint trim_right (l : list N) : list N :=
  match l with
  | nil => nil
  | cons p l' =>
      match trim_right l' with
      | nil => if is_white p then nil else cons p nil
      | t => cons p t
      end
  end.

Definition trim (l : list N) : list N := trim_right (trim_left l).

(** The string of code points that are all ASCII; [None] otherwise. *)
Fixpoint ascii_string (l : list N) : option string :=
  match l with
  | nil => Some EmptyString
  | cons p l' =>
      if (p <? 128)%N then option_map (String (ascii_of_N p)) (ascii_string l')
      else None
  end.

(** StrIntegerLiteral, on a literal without surrounding white space: a signed
    decimal integer or an unsigned 0x / 0o / 0b literal; the empty literal
    is 0. [None] is the parse failure. *)
Definition StrIntegerLiteral (s : string) : option Z :=
  match s with
  | EmptyString => Some 0
  | String "0" (String ("x" | "X") ds) => parse_radix 16 ds
  | String "0" (String ("o" | "O") ds) => parse_radix 8 ds
  | String "0" (String ("b" | "B") ds) => parse_radix 2 ds
  | String "+" ds => parse_decimal ds
  | String "-" ds => option_map Z.opp (parse_decimal ds)
  | ds => parse_decimal ds
  end%char.

(** StringToBigInt: the white space around the literal is dropped; what is
    left has to be a StrIntegerLiteral, so in particular all ASCII. *)
Definition StringToBigInt (s : string) : option Z :=
  match ascii_string (trim (code_points s)) with
  | Some literal => StrIntegerLiteral literal
  | None => None
  end.

(** A plain string: ASCII throughout, and no white space in it. *)
Fixpoint plain (s : string) : bool :=
  match s with
  | EmptyString => true
  | String c s' => (N_of_ascii c <? 128)%N && negb (is_white (N_of_ascii c)) && plain s'
  end.

(** [BigInt.prototype.toString()], radix 10. *)
Definition BigInt_toString (z : Z) : string :=
  NilZero.string_of_int (Z.to_int z).

(** [Number(s)] for [s] an integer literal, which is all the services pass to
    it (the output of [BigInt.prototype.toString]); any other string is taken
    to NaN. *)
Definition Number_of_string (s : string) : spec_float :=
  match StringToBigInt s with
  | Some z => Number_of_Z z
  | None => S754_nan
  end.

(** ** Number.prototype.toFixed *)

(** The decimal digits of a natural number. *)
Definition digits_of (n : Z) : string :=
  NilZero.string_of_uint (N.to_uint (Z.to_N n)).

Fixpoint zeros (k : nat) : string :=
  match k with
  | O => EmptyString
  | S k' => String "0" (zeros k')
  end.

(** Steps 11.a-11.c of toFixed: the digits of [n], left-padded with zeros to
    [f + 1] characters, with a point before the last [f] of them. *)
Definition fixed_digits (n : Z) (f : nat) : string :=
  let m := digits_of n in
  let m := if (String.length m <=? f)%nat
           then zeros (f + 1 - String.length m) ++ m else m in
  match f with
  | O => m
  | _ =>
      let k := String.length m in
      substring 0 (k - f) m ++ "." ++ substring (k - f) f m
  end.

(** The integer [n] for which [n / 10^f - m * 2^e] is closest to zero, the
    larger one on a tie. *)
Definition scaled_round (m : positive) (e : Z) (f : nat) : Z :=
  let p := 10 ^ Z.of_nat f in
  if 0 <=? e then Z.pos m * 2 ^ e * p
  else (2 * Z.pos m * p + 2 ^ (- e)) / 2 ^ (- e + 1).

(** The mathematical value of a finite double at least 2^53 in magnitude is
    an integer. *)
Definition integer_value (m : positive) (e : Z) : Z := Z.pos m * 2 ^ e.

(** Number of decimal digits of a positive integer. *)
Definition decimal_length (x : Z) : Z := Z.of_nat (String.length (digits_of x)).

Definition same_float (x y : spec_float) : bool :=
  match x, y with
  | S754_finite s m e, S754_finite s' m' e' =>
      Bool.eqb s s' && Pos.eqb m m' && Z.eqb e e'
  | S754_infinity s, S754_infinity s' => Bool.eqb s s'
  | S754_zero s, S754_zero s' => Bool.eqb s s'
  | S754_nan, S754_nan => true
  | _, _ => false
  end.

(** Number::toString, step 5: the shortest decimal significand [s] (with [k]
    digits) and exponent [n] such that [s * 10^(n-k)] converts back to the
    double of integer value [X]; among the candidates of that length the one
    closest to [X]. Returns [(s, n)]. The search tries k = 1, 2, ... *)
Fixpoint shortest_digits (fuel : nat) (k : Z) (x : spec_float) (X : Z) : Z * Z :=
  let D := decimal_length X in
  match fuel with
  | O => (X, D)
  | S fuel' =>
      let p := 10 ^ (D - k) in
      let lo := X / p in
      let down := same_float (Number_of_Z (lo * p)) x in
      let up := same_float (Number_of_Z ((lo + 1) * p)) x in
      let pick_up := if lo + 1 =? 10 ^ k then (10 ^ (k - 1), D + 1) else (lo + 1, D) in
      if k <? D then
        match down, up with
        | true, true => if X - lo * p <=? (lo + 1) * p - X then (lo, D) else pick_up
        | true, false => (lo, D)
        | false, true => pick_up
        | false, false => shortest_digits fuel' (k + 1) x X
        end
      else (X, D)
  end.

(** Number::toString for a finite double of magnitude at least 10^21, which
    is where toFixed delegates to it: always the exponential form
    [d.ddd e+N]. *)
Definition Number_toString_large (m : positive) (e : Z) : string :=
  let X := integer_value m e in
  let '(s, n) := shortest_digits 20 1 (S754_finite false m e) X in
  let ds := digits_of s in
  let mant :=
    match ds with
    | String d EmptyString => ds
    | String d rest => String d ("." ++ rest)
    | EmptyString => ds
    end in
  mant ++ "e+" ++ digits_of (n - 1).

Definition ten21 : spec_float := Number_of_Z (10 ^ 21).

(** [x.toFixed(f)] for 0 <= f <= 100. *)
Definition toFixed (x : spec_float) (f : nat) : string :=
  match x with
  | S754_nan => "NaN"
  | S754_infinity s => if s then "-Infinity" else "Infinity"
  | S754_zero _ => fixed_digits 0 f
  | S754_finite s m e =>
      let sign := if s then "-" else "" in
      if SFleb ten21 (S754_finite false m e)
      then sign ++ Number_toString_large m e
      else sign ++ fixed_digits (scaled_round m e f) f
  end.

(** A decimal string with exactly four digits after the point: an optional
    minus sign, one or more digits, a point, four digits. *)
Fixpoint all_digits (s : string) : bool :=
  match s with
  | EmptyString => true
  | String c s' => is_digit c && all_digits s'
  end.

Fixpoint split_at_point (s : string) : option (string * string) :=
  match s with
  | EmptyString => None
  | String c s' =>
      if Ascii.eqb c "." then Some (EmptyString, s')
      else match split_at_point s' with
           | Some (a, b) => Some (String c a, b)
           | None => None
           end
  end.

Definition fraction_digits_are (k : nat) (s : string) : bool :=
  let body := match s with
              | String c s' => if Ascii.eqb c "-" then s' else s
              | EmptyString => s
              end in
  match split_at_point body with
  | Some (a, b) =>
      negb (String.length a =? 0)%nat && all_digits a
      && (String.length b =? k)%nat && all_digits b
  | None => false
  end.

End JSNum.

Import JSNum.


(* ===================================================================== *)
(** * Values and errors *)
(* ===================================================================== *)

Module JS.

(** The values that flow through the services as wallet ids, addresses,
    balances and payloads. A missing property reads as [VUndefined]. *)
#[warnings="-register-all"]
Inductive value :=
| VUndefined
| VNull
| VBool (b : bool)
| VString (s : string)
| VObject (fields : list (string * value)).

(** ToBoolean. *)
Definition truthy (v : value) : bool :=
  match v with
  | VUndefined | VNull => false
  | VBool b => b
  | VString s => negb (String.eqb s "")
  | VObject _ => true
  end.

(** ToString, as a template literal applies it. *)
Definition to_display (v : value) : string :=
  match v with
  | VUndefined => "undefined"
  | VNull => "null"
  | VBool true => "true"
  | VBool false => "false"
  | VString s => s
  | VObject _ => "[object Object]"
  end.

(** A thrown error object. *)
Record exn := { name : string; message : string }.

Definition Error (msg : string) : exn := {| name := "Error"; message := msg |}.
Definition TypeError (msg : string) : exn := {| name := "TypeError"; message := msg |}.
Definition SyntaxError (msg : string) : exn := {| name := "SyntaxError"; message := msg |}.

(** How a call ends: with a value (a resolved promise, a normal return) or
    with a thrown error (a rejected promise). *)
Inductive outcome (A : Type) :=
| Returned (a : A)
| Thrown (e : exn).
Arguments Returned {A} a.
Arguments Thrown {A} e.

End JS.

Import JS.

#[local] Open Scope list_scope.

(* ===================================================================== *)
(** * The collaborators and the effect monad *)
(* ===================================================================== *)

Module Effects.

(** ** What the connector hands back *)

Record Account := { address : value }.

(** [account = None] is a wallet object without an [account] property. *)
Record Wallet := { selectedAddress : value; account : option Account }.

Record ConnectOptions :=
  { include : list string; modalMode : string; modalTheme : string }.

(** The object [connect()] resolves to. wallet.js destructures [wallet] from
    it ([None]: null or undefined); the deployment service reads
    [isConnected] and [account] (here [conn_account]) from it. *)
Record Connection :=
  { wallet : option Wallet; isConnected : bool; conn_account : option Account }.

Record Call :=
  { contractAddress : string; entrypoint : string; calldata : list value }.

Record DeployResult := { transaction_hash : value; contract_address : value }.

Record CheckUser := { is_contract_deployed : bool }.

(** The body of POST /api/update-user-contract; [upd_contract_address] is its
    [contract_address] property. *)
Record UpdateUserContract := { wallet_id : value; upd_contract_address : value }.

Inductive Icon := IconETH | IconUSDC | IconSTRK.

Record BalanceEntry := { icon : Icon; title : string; balance : string }.

(** ** Events: every call that leaves the module *)

Inductive logarg :=
| LStr (s : string)
| LVal (v : value)
| LErr (e : exn).

Inductive event :=
| EvConnect (options : option ConnectOptions)
| EvEnable
| EvCallContract (c : Call)
| EvDeployContract (payload : value)
| EvWaitForTransaction (hash : value)
| EvHttpGet (url : string)
| EvHttpPost (url : string) (body : UpdateUserContract)
| EvAlert (msg : string)
| EvRemoveItem (key : string)
| EvConsoleLog (args : list logarg)
| EvConsoleError (args : list logarg)
| EvSetBalances (balances : list BalanceEntry).

(** The calls made so far, oldest first. *)
Definition history := list event.

(** ** The world: how each collaborator answers, given what happened before *)

Record World :=
  { REACT_APP_IS_DEV : option string;
    connect : history -> option ConnectOptions -> outcome Connection;
    (** [wallet.enable()]: the wallet object as it stands once the promise
        has resolved (enabling may fill in its address). *)
    enable : history -> Wallet -> outcome Wallet;
    callContract : history -> Call -> outcome (list string);
    deployContract_rpc : history -> value -> outcome DeployResult;
    waitForTransaction : history -> value -> outcome unit;
    http_get : history -> string -> outcome CheckUser;
    http_post : history -> string -> UpdateUserContract -> outcome unit;
    getDeployContractData : value -> value }.

(** ** The monad *)

Definition M (A : Type) : Type := history -> outcome A * history.

Definition ret {A} (a : A) : M A := fun h => (Returned a, h).

Definition bind {A B} (m : M A) (k : A -> M B) : M B :=
  fun h =>
    match m h with
    | (Returned a, h') => k a h'
    | (Thrown e, h') => (Thrown e, h')
    end.

Definition throw {A} (e : exn) : M A := fun h => (Thrown e, h).

(** [try { m } catch (error) { handler error }]. *)
Definition try_catch {A} (m : M A) (handler : exn -> M A) : M A :=
  fun h =>
    match m h with
    | (Returned a, h') => (Returned a, h')
    | (Thrown e, h') => handler e h'
    end.

(** An external call: the collaborator answers from the history before the
    call, and the call is appended to the history. *)
Definition call {A} (ev : event) (answer : history -> outcome A) : M A :=
  fun h => (answer h, h ++ [ev]).

(** A call whose result is not used and that does not throw. *)
Definition emit (ev : event) : M unit := fun h => (Returned tt, h ++ [ev]).

Definition console_log (args : list logarg) : M unit := emit (EvConsoleLog args).
Definition console_error (args : list logarg) : M unit := emit (EvConsoleError args).
Definition alert (msg : string) : M unit := emit (EvAlert msg).

End Effects.

Import Effects.

Declare Scope js_scope.
Delimit Scope js_scope with js.
Notation "x <- m ;; k" := (bind m (fun x => k))
  (at level 61, m at next level, right associativity) : js_scope.
Notation "m ;;; k" := (bind m (fun _ => k))
  (at level 61, right associativity) : js_scope.
#[local] Open Scope js_scope.

(* ===================================================================== *)
(** * frontend/src/services/wallet.js *)
(* ===================================================================== *)

Module WalletService.

Definition CRM_TOKEN_ADDRESS : string :=
  "0x051c4b1fe3bf6774b87ad0b15ef5d1472759076e42944fff9b9f641ff13e5bbe".

Record TokenBalances := { ETH : value; USDC : value; STRK : value }.

Section Service.

(** The world the service runs in, and the token addresses of
    [utils/constants]. *)
Variable w : World.
Variables ETH_ADDRESS USDC_ADDRESS STRK_ADDRESS : string.

Definition balanceOf (tokenAddress : string) (walletAddress : value) : Call :=
  {| contractAddress := tokenAddress;
     entrypoint := "balanceOf";
     calldata := [walletAddress] |}.

(** [wallet.account.callContract(c)]; reading [callContract] off a missing
    [account] is a TypeError. *)
Definition account_callContract (wallet : Wallet) (c : Call) : M (list string) :=
  match account wallet with
  | None => throw (TypeError "Cannot read properties of undefined (reading 'callContract')")
  | Some _ => call (EvCallContract c) (fun h => callContract w h c)
  end.

(** [BigInt(response[0])]: a TypeError on a missing first word, a
    SyntaxError on a word that is no integer literal. *)
Definition BigInt_first (response : list string) : M Z :=
  match response with
  | [] => throw (TypeError "Cannot convert undefined to a BigInt")
  | word :: _ =>
      match StringToBigInt word with
      | Some z => ret z
      | None => throw (SyntaxError ("Cannot convert " ++ word ++ " to a BigInt")%string)
      end
  end.

Definition is_dev : bool :=
  match REACT_APP_IS_DEV w with
  | Some s => String.eqb s "true"
  | None => false
  end.

Definition crm_alert : string :=
  "Beta testing is allowed only for users who hold the CRM token.".

Definition checkForCRMToken (walletAddress : value) : M bool :=
  if is_dev then
    console_log [LStr "Development mode: Skipping CRM token check."] ;;;
    ret true
  else
    try_catch
      (conn <- call (EvConnect None) (fun h => connect w h None) ;;
       match wallet conn with
       | None => throw (Error "Wallet not connected")
       | Some wallet =>
           response <- account_callContract wallet
                         (balanceOf CRM_TOKEN_ADDRESS walletAddress) ;;
           z <- BigInt_first response ;;
           let balance := BigInt_toString z in
           if Number_gt_zero (Number_of_string balance) then ret true
           else alert crm_alert ;;; ret false
       end)
      (fun error =>
         console_error [LStr "Error checking CRM token balance:"; LErr error] ;;;
         throw error).

Definition connect_options : ConnectOptions :=
  {| include := ["argentX"; "braavos"];
     modalMode := "alwaysAsk";
     modalTheme := "light" |}.

(** [wallet.selectedAddress || wallet.account.address]: the right operand is
    evaluated only when the left one is falsy, and reading [address] off a
    missing [account] is a TypeError. *)
Definition selected_or_account_address (wallet : Wallet) : M value :=
  if truthy (selectedAddress wallet) then ret (selectedAddress wallet)
  else match account wallet with
       | None => throw (TypeError "Cannot read properties of undefined (reading 'address')")
       | Some acc => ret (address acc)
       end.

Definition connectWallet : M value :=
  try_catch
    (console_log [LStr "Attempting to connect to wallet..."] ;;;
     conn <- call (EvConnect (Some connect_options))
               (fun h => connect w h (Some connect_options)) ;;
     match wallet conn with
     | None =>
         console_error [LStr "No wallet found"] ;;;
         throw (Error "Failed to connect to wallet")
     | Some wallet =>
         wallet <- call EvEnable (fun h => enable w h wallet) ;;
         address <- selected_or_account_address wallet ;;
         if negb (truthy address) then throw (Error "No wallet address found")
         else
           console_log [LStr "Wallet successfully connected. Address:"; LVal address] ;;;
           ret address
     end)
    (fun error =>
       console_error [LStr "Error connecting wallet:"; LStr (message error)] ;;;
       throw error).

(** [localStorage.removeItem('wallet_id')]. *)
Definition logout : M unit := emit (EvRemoveItem "wallet_id").

Definition tokenDecimals (tokenAddress : string) : Z :=
  if String.eqb tokenAddress USDC_ADDRESS then 6 else 18.

(** [(Number(balance) / (10 ** tokenDecimals)).toFixed(4)] for the balance
    [z] read from the contract. *)
Definition readableBalance (tokenAddress : string) (z : Z) : string :=
  let balance := BigInt_toString z in
  toFixed (Number_div (Number_of_string balance)
                      (Number_pow10 (tokenDecimals tokenAddress))) 4.

Definition getTokenBalance (wallet : Wallet) (walletAddress : value)
    (tokenAddress : string) : M value :=
  try_catch
    (response <- account_callContract wallet (balanceOf tokenAddress walletAddress) ;;
     z <- BigInt_first response ;;
     let readable := readableBalance tokenAddress z in
     console_log [LStr ("Balance for token " ++ tokenAddress ++ ":")%string; LStr readable] ;;;
     ret (VString readable))
    (fun error =>
       console_error [LStr ("Error fetching balance for token " ++ tokenAddress ++ ":")%string;
                      LErr error] ;;;
       ret (VString "0")).

Definition getTokenBalances (walletAddress : value) : M TokenBalances :=
  try_catch
    (conn <- call (EvConnect None) (fun h => connect w h None) ;;
     match wallet conn with
     | None => throw (Error "Wallet not connected")
     | Some wallet =>
         eth <- getTokenBalance wallet walletAddress ETH_ADDRESS ;;
         usdc <- getTokenBalance wallet walletAddress USDC_ADDRESS ;;
         strk <- getTokenBalance wallet walletAddress STRK_ADDRESS ;;
         ret {| ETH := eth; USDC := usdc; STRK := strk |}
     end)
    (fun error =>
       console_error [LStr "Error fetching token balances:"; LErr error] ;;;
       throw error).

(** [v !== undefined ? v.toString() : '0.00']; [null] has no [toString]. *)
Definition balance_or_default (v : value) : M string :=
  match v with
  | VUndefined => ret "0.00"
  | VNull => throw (TypeError "Cannot read properties of null (reading 'toString')")
  | _ => ret (to_display v)
  end.

(** The [setBalances] callback: it may throw, and sees the history too. *)
Definition callback := history -> list BalanceEntry -> outcome unit.

Definition getBalances (walletId : value) (setBalances : callback) : M unit :=
  if negb (truthy walletId) then ret tt
  else
    try_catch
      (data <- getTokenBalances walletId ;;
       eth <- balance_or_default (ETH data) ;;
       usdc <- balance_or_default (USDC data) ;;
       strk <- balance_or_default (STRK data) ;;
       let updatedBalances :=
         [ {| icon := IconETH; title := "ETH"; balance := eth |};
           {| icon := IconUSDC; title := "USDC"; balance := usdc |};
           {| icon := IconSTRK; title := "STRK"; balance := strk |} ] in
       call (EvSetBalances updatedBalances) (fun h => setBalances h updatedBalances))
      (fun error =>
         console_error [LStr "Error fetching user balances:"; LErr error] ;;;
         ret tt).

End Service.

End WalletService.

(* ===================================================================== *)
(** * The contract deployment service *)
(* ===================================================================== *)

Module ContractService.

(** The object [deployContract] returns; [contractAddress_] is its
    [contractAddress] property. *)
Record Deployment := { transactionHash : value; contractAddress_ : value }.

Section Service.

Variable w : World.

(** [starknet.account.deployContract(payload)]; a connection object without
    an [account] has nothing to call. *)
Definition account_deployContract (conn : Connection) (payload : value) : M DeployResult :=
  match conn_account conn with
  | None => throw (TypeError "Cannot read properties of undefined (reading 'deployContract')")
  | Some _ => call (EvDeployContract payload) (fun h => deployContract_rpc w h payload)
  end.

Definition account_waitForTransaction (conn : Connection) (hash : value) : M unit :=
  match conn_account conn with
  | None => throw (TypeError "Cannot read properties of undefined (reading 'waitForTransaction')")
  | Some _ => call (EvWaitForTransaction hash) (fun h => waitForTransaction w h hash)
  end.

(** Modelled from the spec: [deployContract] of [services/contract.js], which
    is not among the sources (only its test is). Section 4.2: connect; fail
    with "Wallet not connected" when the connector reports a disconnected
    state; build the payload from the static configuration; invoke
    [account.deployContract(payload)], then block on
    [account.waitForTransaction(transactionHash)] and return
    [{transactionHash, contractAddress}]; every error from connect, deploy or
    wait propagates unchanged. *)
Definition deployContract (walletId : value) : M Deployment :=
  conn <- call (EvConnect None) (fun h => connect w h None) ;;
  if negb (isConnected conn) then throw (Error "Wallet not connected")
  else
    let payload := getDeployContractData w walletId in
    result <- account_deployContract conn payload ;;
    account_waitForTransaction conn (transaction_hash result) ;;;
    ret {| transactionHash := transaction_hash result;
           contractAddress_ := contract_address result |}.

Definition check_user_url (walletId : value) : string :=
  ("/api/check-user?wallet_id=" ++ to_display walletId)%string.

Definition update_user_contract_url : string := "/api/update-user-contract".

(** Modelled from the spec: [checkAndDeployContract] of
    [services/contract.js], which is not among the sources (only its test
    is). Section 4.2: query [GET /api/check-user?wallet_id=...]; if already
    deployed return at once; otherwise [deployContract], then report the new
    address with [POST /api/update-user-contract]; a failure at any step is
    logged with the fixed message "Error checking contract status:" and
    thrown again. *)
Definition checkAndDeployContract (walletId : value) : M unit :=
  try_catch
    (response <- call (EvHttpGet (check_user_url walletId))
                   (fun h => http_get w h (check_user_url walletId)) ;;
     if is_contract_deployed response then ret tt
     else
       result <- deployContract walletId ;;
       let body := {| wallet_id := walletId;
                      upd_contract_address := contractAddress_ result |} in
       call (EvHttpPost update_user_contract_url body)
         (fun h => http_post w h update_user_contract_url body))
    (fun error =>
       console_error [LStr "Error checking contract status:"; LErr error] ;;;
       throw error).

End Service.

End ContractService.

(* ===================================================================== *)
(** * Observing a run *)
(* ===================================================================== *)

Module Observe.

Import WalletService.

(** Calls on the wallet connector or on the wallet and account objects it
    hands out. *)
Definition is_connector_call (ev : event) : bool :=
  match ev with
  | EvConnect _ | EvEnable | EvCallContract _
  | EvDeployContract _ | EvWaitForTransaction _ => true
  | _ => false
  end.

Definition is_deploy (ev : event) : bool :=
  match ev with EvDeployContract _ => true | _ => false end.

Definition is_http_post (ev : event) : bool :=
  match ev with EvHttpPost _ _ => true | _ => false end.

Definition is_alert (ev : event) : bool :=
  match ev with EvAlert _ => true | _ => false end.

Definition is_setBalances (ev : event) : bool :=
  match ev with EvSetBalances _ => true | _ => false end.

(** How many events of a kind a run produced. *)
Definition count (p : event -> bool) (evs : list event) : nat :=
  List.length (List.filter p evs).

(** The events a run starting at [h] and ending at [h'] added. *)
Definition events_since (h h' : history) : list event :=
  List.skipn (List.length h) h'.

(** What the world gives to the read [balanceOf(walletAddress)] on the token
    contract at [tokenAddress], asked through [wallet] when the history is
    [h]: the integer denoted by the first word of the answer, or the failure,
    which is the missing account, the rejection of the call, the missing
    first word, or the first word that is no integer literal. *)
Definition balance_read (w : World) (wallet : Wallet) (walletAddress : value)
    (tokenAddress : string) (h : history) : outcome Z :=
  match account wallet with
  | None =>
      Thrown (TypeError "Cannot read properties of undefined (reading 'callContract')")
  | Some _ =>
      match callContract w h {| contractAddress := tokenAddress;
                                entrypoint := "balanceOf";
                                calldata := [walletAddress] |} with
      | Thrown e => Thrown e
      | Returned [] => Thrown (TypeError "Cannot convert undefined to a BigInt")
      | Returned (word :: _) =>
          match StringToBigInt word with
          | Some z => Returned z
          | None => Thrown (SyntaxError ("Cannot convert " ++ word ++ " to a BigInt")%string)
          end
      end
  end.

(** The balance [z] in base units, divided by ten to the token's decimals (6
    for the USDC address, 18 for any other) and written with [toFixed(4)]. *)
Definition formatted_balance (USDC_ADDRESS tokenAddress : string) (z : Z) : string :=
  toFixed (Number_div (Number_of_Z z)
             (Number_pow10 (if String.eqb tokenAddress USDC_ADDRESS then 6 else 18)%Z)) 4.

(** The balance string a read stands for: the formatted balance when the read
    gives an integer, ['0'] when it fails. *)
Definition read_string (w : World) (USDC_ADDRESS : string) (wallet : Wallet)
    (walletAddress : value) (tokenAddress : string) (h : history) : string :=
  match balance_read w wallet walletAddress tokenAddress h with
  | Returned z => formatted_balance USDC_ADDRESS tokenAddress z
  | Thrown _ => "0"
  end.

(** The console.error line of a failed token read. *)
Definition fetch_logged (tokenAddress : string) (e : exn) : event :=
  EvConsoleError [LStr ("Error fetching balance for token " ++ tokenAddress ++ ":")%string;
                  LErr e].

(** The calls a read leaves in the history: the contract call, when there is
    an account to call, and one console line, the balance or the failure. *)
Definition read_events (w : World) (USDC_ADDRESS : string) (wallet : Wallet)
    (walletAddress : value) (tokenAddress : string) (h : history) : list event :=
  match account wallet with
  | Some _ => [EvCallContract {| contractAddress := tokenAddress;
                                 entrypoint := "balanceOf";
                                 calldata := [walletAddress] |}]
  | None => []
  end
  ++ [match balance_read w wallet walletAddress tokenAddress h with
      | Returned z =>
          EvConsoleLog [LStr ("Balance for token " ++ tokenAddress ++ ":")%string;
                        LStr (formatted_balance USDC_ADDRESS tokenAddress z)]
      | Thrown e => fetch_logged tokenAddress e
      end].

(** The quotient [Number(balance) / (10 ** tokenDecimals)] that is formatted. *)
Definition quotient (USDC_ADDRESS tokenAddress : string) (z : Z) : spec_float :=
  Number_div (Number_of_string (BigInt_toString z))
             (Number_pow10 (tokenDecimals USDC_ADDRESS tokenAddress)).

Definition entry_list (eth usdc strk : string) : list BalanceEntry :=
  [ {| icon := IconETH; title := "ETH"; balance := eth |};
    {| icon := IconUSDC; title := "USDC"; balance := usdc |};
    {| icon := IconSTRK; title := "STRK"; balance := strk |} ].

(** The first thing [connectWallet] logs. *)
Definition connecting : logarg := LStr "Attempting to connect to wallet...".

(** The value of a u256 returned as two 128-bit words, low word first. *)
Definition u256 (low high : Z) : Z := low + 2 ^ 128 * high.

(** ** Further observers *)

Definition is_connect (ev : event) : bool :=
  match ev with EvConnect _ => true | _ => false end.

Definition is_enable (ev : event) : bool :=
  match ev with EvEnable => true | _ => false end.

Definition is_call_contract (ev : event) : bool :=
  match ev with EvCallContract _ => true | _ => false end.

Definition is_wait (ev : event) : bool :=
  match ev with EvWaitForTransaction _ => true | _ => false end.

Definition is_console_error (ev : event) : bool :=
  match ev with EvConsoleError _ => true | _ => false end.

(** The console.error line each catch block writes. *)
Definition crm_logged (e : exn) : event :=
  EvConsoleError [LStr "Error checking CRM token balance:"; LErr e].

Definition connect_logged (e : exn) : event :=
  EvConsoleError [LStr "Error connecting wallet:"; LStr (message e)].

Definition balances_logged (e : exn) : event :=
  EvConsoleError [LStr "Error fetching token balances:"; LErr e].

Definition user_balances_logged (e : exn) : event :=
  EvConsoleError [LStr "Error fetching user balances:"; LErr e].

Definition status_logged (e : exn) : event :=
  EvConsoleError [LStr "Error checking contract status:"; LErr e].

(** The last event of a history, if any. *)
Definition last_event (h : history) : option event := List.last (List.map Some h) None.

(** The connection step of wallet.js fails with [e]: [connect()] rejects with
    [e], or it resolves without a wallet and [e] is "Wallet not connected". *)
Definition connection_fails (w : World) (h : history) (e : exn) : Prop :=
  connect w h None = Thrown e
  \/ (exists conn, connect w h None = Returned conn
                   /\ wallet conn = None
                   /\ e = Error "Wallet not connected").

End Observe.

(* ===================================================================== *)
(** * Sample worlds *)
(* ===================================================================== *)

Module Samples.

Import WalletService ContractService.

(** The token addresses of Starknet mainnet. *)
Definition eth_address : string :=
  "0x049d36570d4e46f48e99674bd3fcc84644ddd6b96f7c741b1562b82f9e004dc7".
Definition usdc_address : string :=
  "0x053c91253bc9682c04929ca02ed00b3e423f6710d2ee7e0d5ebb06f3ecf368a8".
Definition strk_address : string :=
  "0x04718f5a0fc34cc1af16a1cdee98ffb20c31f5cd61d6ab07201858f4287c938d".

Definition sample_account : Account := {| address := VString "0x123" |}.

Definition sample_wallet : Wallet :=
  {| selectedAddress := VString "0x123"; account := Some sample_account |}.

Definition sample_connection : Connection :=
  {| wallet := Some sample_wallet;
     isConnected := true;
     conn_account := Some sample_account |}.

(** A world in which every collaborator succeeds; [words] answers every
    contract read and [deployed] every status query. *)
Definition world_with (conn : outcome Connection)
    (read : Call -> outcome (list string)) (deployed : bool) : World :=
  {| REACT_APP_IS_DEV := Some "false";
     connect := fun _ _ => conn;
     enable := fun _ wl => Returned wl;
     callContract := fun _ c => read c;
     deployContract_rpc := fun _ _ =>
       Returned {| transaction_hash := VString "0xabc";
                   contract_address := VString "0xdef" |};
     waitForTransaction := fun _ _ => Returned tt;
     http_get := fun _ _ => Returned {| is_contract_deployed := deployed |};
     http_post := fun _ _ _ => Returned tt;
     getDeployContractData := fun _ => VObject [("contractData", VString "mockContractData")] |}.

(** The reads of the balance test: 1 ETH, 2 USDC, 3 STRK. *)
Definition test_reads (c : Call) : outcome (list string) :=
  if String.eqb (contractAddress c) eth_address then Returned ["1000000000000000000"]
  else if String.eqb (contractAddress c) usdc_address then Returned ["2000000"]
  else if String.eqb (contractAddress c) strk_address then Returned ["3000000000000000000"]
  else Thrown (Error "Contract not found").

(** The same with the USDC read failing. *)
Definition usdc_fails (c : Call) : outcome (list string) :=
  if String.eqb (contractAddress c) usdc_address then Thrown (Error "Contract call failed")
  else test_reads c.

(** Every contract read answers with the same words. *)
Definition crm_reads (words : list string) (c : Call) : outcome (list string) :=
  Returned words.

(** A connector reporting a disconnected session, as in the deployment test. *)
Definition disconnected : Connection :=
  {| wallet := None; isConnected := false; conn_account := None |}.

(** A wallet object with neither a selected address nor an account. *)
Definition bare_wallet : Wallet := {| selectedAddress := VUndefined; account := None |}.

Definition bare_connection : Connection :=
  {| wallet := Some bare_wallet; isConnected := true; conn_account := None |}.

Definition ok_callback : callback := fun _ _ => Returned tt.

Definition ok_world : World :=
  world_with (Returned sample_connection) test_reads false.

(** Development mode. *)
Definition dev_world : World :=
  {| REACT_APP_IS_DEV := Some "true";
     connect := connect ok_world;
     enable := enable ok_world;
     callContract := callContract ok_world;
     deployContract_rpc := deployContract_rpc ok_world;
     waitForTransaction := waitForTransaction ok_world;
     http_get := http_get ok_world;
     http_post := http_post ok_world;
     getDeployContractData := getDeployContractData ok_world |}.

(** [wallet.enable()] rejects. *)
Definition enable_fails : World :=
  {| REACT_APP_IS_DEV := REACT_APP_IS_DEV ok_world;
     connect := connect ok_world;
     enable := fun _ _ => Thrown (Error "Connection failed");
     callContract := callContract ok_world;
     deployContract_rpc := deployContract_rpc ok_world;
     waitForTransaction := waitForTransaction ok_world;
     http_get := http_get ok_world;
     http_post := http_post ok_world;
     getDeployContractData := getDeployContractData ok_world |}.

(** The backend update rejects after a successful deployment. *)
Definition update_fails : World :=
  {| REACT_APP_IS_DEV := REACT_APP_IS_DEV ok_world;
     connect := connect ok_world;
     enable := enable ok_world;
     callContract := callContract ok_world;
     deployContract_rpc := deployContract_rpc ok_world;
     waitForTransaction := waitForTransaction ok_world;
     http_get := http_get ok_world;
     http_post := fun _ _ _ => Thrown (Error "Update failed");
     getDeployContractData := getDeployContractData ok_world |}.

(** The backend status query rejects. *)
Definition check_fails : World :=
  {| REACT_APP_IS_DEV := REACT_APP_IS_DEV ok_world;
     connect := connect ok_world;
     enable := enable ok_world;
     callContract := callContract ok_world;
     deployContract_rpc := deployContract_rpc ok_world;
     waitForTransaction := waitForTransaction ok_world;
     http_get := fun _ _ => Thrown (Error "Backend error");
     http_post := http_post ok_world;
     getDeployContractData := getDeployContractData ok_world |}.

Definition no_wallet : Connection :=
  {| wallet := None; isConnected := true; conn_account := Some sample_account |}.

(** The worlds of the failing runs. *)
Definition no_wallet_world : World := world_with (Returned no_wallet) test_reads false.

Definition usdc_fails_world : World :=
  world_with (Returned sample_connection) usdc_fails false.

Definition bare_world : World := world_with (Returned bare_connection) test_reads false.

End Samples.

Import WalletService ContractService Observe Samples.

(* ===================================================================== *)
(** * Runs on the sample worlds *)
(* ===================================================================== *)

Example toFixed_one_eth :
  toFixed (Number_div (Number_of_string "1000000000000000000") (Number_pow10 18)) 4 = "1.0000".
Proof. vm_compute. reflexivity. Qed.

Example toFixed_two_usdc :
  toFixed (Number_div (Number_of_string "2000000") (Number_pow10 6)) 4 = "2.0000".
Proof. vm_compute. reflexivity. Qed.

Example toFixed_rounds_half_up :
  toFixed (Number_div (Number_of_string "1234567") (Number_pow10 6)) 4 = "1.2346".
Proof. vm_compute. reflexivity. Qed.

Example StringToBigInt_hex : StringToBigInt "0x1bc16d674ec80000" = Some 2000000000000000000.
Proof. vm_compute. reflexivity. Qed.

Example StringToBigInt_rejects : StringToBigInt "12a" = None /\ StringToBigInt "0x" = None.
Proof. split; vm_compute; reflexivity. Qed.

(** White space around the literal is dropped, also outside ASCII: U+00A0
    (here as its UTF-8 bytes and as the lone byte), U+FEFF, U+2028. *)
Example StringToBigInt_nbsp :
  StringToBigInt (String (ascii_of_nat 194) (String (ascii_of_nat 160) "5000000"))
    = Some 5000000
  /\ StringToBigInt (String (ascii_of_nat 160) "5000000") = Some 5000000.
Proof. split; vm_compute; reflexivity. Qed.

Example StringToBigInt_unicode_space :
  StringToBigInt
    (String (ascii_of_nat 239) (String (ascii_of_nat 187) (String (ascii_of_nat 191)
       ("0x10" ++ String (ascii_of_nat 226) (String (ascii_of_nat 128)
                    (String (ascii_of_nat 168) (String (ascii_of_nat 9) "")))))))
    = Some 16.
Proof. vm_compute. reflexivity. Qed.

(** U+2020 and U+0085 are no white space. *)
Example StringToBigInt_not_space :
  StringToBigInt
    ("5" ++ String (ascii_of_nat 226) (String (ascii_of_nat 128) (String (ascii_of_nat 160) "")))
    = None
  /\ StringToBigInt ("5" ++ String (ascii_of_nat 194) (String (ascii_of_nat 133) "")) = None.
Proof. split; vm_compute; reflexivity. Qed.

Example toFixed_small : toFixed (quotient usdc_address eth_address 50000000000000) 4 = "0.0001".
Proof. vm_compute. reflexivity. Qed.

Example toFixed_large :
  toFixed (quotient usdc_address eth_address (2 ^ 128 - 1)) 4 = "340282366920938487808.0000".
Proof. vm_compute. reflexivity. Qed.

Example toFixed_exponential :
  toFixed (quotient usdc_address usdc_address (2 ^ 100)) 4 = "1.2676506002282293e+24".
Proof. vm_compute. reflexivity. Qed.

(** The runs of wallet.test.js. *)

Example checkForCRMToken_dev :
  checkForCRMToken dev_world (VString "0x123") []
  = (Returned true, [EvConsoleLog [LStr "Development mode: Skipping CRM token check."]]).
Proof. vm_compute. reflexivity. Qed.

Example checkForCRMToken_holder :
  checkForCRMToken (world_with (Returned sample_connection) (crm_reads ["1"]) false)
    (VString "0x123") []
  = (Returned true,
     [EvConnect None; EvCallContract (balanceOf CRM_TOKEN_ADDRESS (VString "0x123"))]).
Proof. vm_compute. reflexivity. Qed.

Example checkForCRMToken_no_token :
  checkForCRMToken (world_with (Returned sample_connection) (crm_reads ["0"]) false)
    (VString "0x123") []
  = (Returned false,
     [EvConnect None; EvCallContract (balanceOf CRM_TOKEN_ADDRESS (VString "0x123"));
      EvAlert "Beta testing is allowed only for users who hold the CRM token."]).
Proof. vm_compute. reflexivity. Qed.

Example checkForCRMToken_no_wallet :
  fst (checkForCRMToken (world_with (Returned no_wallet) test_reads false) (VString "0x123") [])
  = Thrown (Error "Wallet not connected").
Proof. vm_compute. reflexivity. Qed.

Example checkForCRMToken_call_fails :
  fst (checkForCRMToken
         (world_with (Returned sample_connection)
            (fun _ => Thrown (Error "Contract call failed")) false)
         (VString "0x123") [])
  = Thrown (Error "Contract call failed").
Proof. vm_compute. reflexivity. Qed.

Example connectWallet_test :
  connectWallet ok_world []
  = (Returned (VString "0x123"),
     [ EvConsoleLog [LStr "Attempting to connect to wallet..."];
       EvConnect (Some {| include := ["argentX"; "braavos"];
                          modalMode := "alwaysAsk"; modalTheme := "light" |});
       EvEnable;
       EvConsoleLog [LStr "Wallet successfully connected. Address:"; LVal (VString "0x123")] ]).
Proof. vm_compute. reflexivity. Qed.

Example connectWallet_no_wallet :
  fst (connectWallet (world_with (Returned no_wallet) test_reads false) [])
  = Thrown (Error "Failed to connect to wallet").
Proof. vm_compute. reflexivity. Qed.

Example connectWallet_enable_fails :
  fst (connectWallet enable_fails []) = Thrown (Error "Connection failed").
Proof. vm_compute. reflexivity. Qed.

Example getTokenBalances_no_wallet :
  fst (getTokenBalances (world_with (Returned no_wallet) test_reads false)
         eth_address usdc_address strk_address (VString "0x123") [])
  = Thrown (Error "Wallet not connected").
Proof. vm_compute. reflexivity. Qed.

Example getBalances_without_wallet_id :
  getBalances ok_world eth_address usdc_address strk_address VNull ok_callback []
  = (Returned tt, []).
Proof. vm_compute. reflexivity. Qed.

Example getBalances_test :
  snd (getBalances ok_world eth_address usdc_address strk_address (VString "0x123")
         ok_callback [])
  = [ EvConnect None;
      EvCallContract (balanceOf eth_address (VString "0x123"));
      EvConsoleLog [LStr ("Balance for token " ++ eth_address ++ ":")%string; LStr "1.0000"];
      EvCallContract (balanceOf usdc_address (VString "0x123"));
      EvConsoleLog [LStr ("Balance for token " ++ usdc_address ++ ":")%string; LStr "2.0000"];
      EvCallContract (balanceOf strk_address (VString "0x123"));
      EvConsoleLog [LStr ("Balance for token " ++ strk_address ++ ":")%string; LStr "3.0000"];
      EvSetBalances (entry_list "1.0000" "2.0000" "3.0000") ].
Proof. vm_compute. reflexivity. Qed.

Example logout_test : logout [] = (Returned tt, [EvRemoveItem "wallet_id"]).
Proof. reflexivity. Qed.

Example getTokenBalance_padded_word :
  fst (getTokenBalance
         (world_with (Returned sample_connection)
            (crm_reads [String (ascii_of_nat 194) (String (ascii_of_nat 160) "5000000")])
            false)
         usdc_address sample_wallet (VString "0x123") usdc_address [])
  = Returned (VString "5.0000").
Proof. vm_compute. reflexivity. Qed.

Example read_string_usdc_fails :
  read_string usdc_fails_world usdc_address sample_wallet (VString "0x123") eth_address []
    = "1.0000"
  /\ read_string usdc_fails_world usdc_address sample_wallet (VString "0x123") usdc_address []
    = "0"
  /\ read_string usdc_fails_world usdc_address sample_wallet (VString "0x123") strk_address []
    = "3.0000".
Proof. repeat split; vm_compute; reflexivity. Qed.

Example getTokenBalances_test :
  fst (getTokenBalances (world_with (Returned sample_connection) test_reads false)
         eth_address usdc_address strk_address (VString "0x123") [])
  = Returned {| ETH := VString "1.0000"; USDC := VString "2.0000"; STRK := VString "3.0000" |}.
Proof. vm_compute. reflexivity. Qed.

Example getTokenBalances_partial :
  fst (getTokenBalances (world_with (Returned sample_connection) usdc_fails false)
         eth_address usdc_address strk_address (VString "0x123") [])
  = Returned {| ETH := VString "1.0000"; USDC := VString "0"; STRK := VString "3.0000" |}.
Proof. vm_compute. reflexivity. Qed.

(** The runs of the deployment test. *)

Example deployContract_test :
  deployContract ok_world (VString "0x123") []
  = (Returned {| transactionHash := VString "0xabc"; contractAddress_ := VString "0xdef" |},
     [ EvConnect None;
       EvDeployContract (VObject [("contractData", VString "mockContractData")]);
       EvWaitForTransaction (VString "0xabc") ]).
Proof. vm_compute. reflexivity. Qed.

Example deployContract_not_connected :
  fst (deployContract (world_with (Returned disconnected) test_reads false) (VString "0x123") [])
  = Thrown (Error "Wallet not connected").
Proof. vm_compute. reflexivity. Qed.

Example deployContract_connect_rejects :
  fst (deployContract (world_with (Thrown (Error "Deployment failed")) test_reads false)
         (VString "0x123") [])
  = Thrown (Error "Deployment failed").
Proof. vm_compute. reflexivity. Qed.

Example checkAndDeployContract_already_deployed :
  checkAndDeployContract (world_with (Returned sample_connection) test_reads true)
    (VString "0x123") []
  = (Returned tt, [EvHttpGet "/api/check-user?wallet_id=0x123"]).
Proof. vm_compute. reflexivity. Qed.

Example checkAndDeployContract_backend_error :
  checkAndDeployContract check_fails (VString "0x123") []
  = (Thrown (Error "Backend error"),
     [ EvHttpGet "/api/check-user?wallet_id=0x123";
       EvConsoleError [LStr "Error checking contract status:"; LErr (Error "Backend error")] ]).
Proof. vm_compute. reflexivity. Qed.

Example checkAndDeployContract_update_fails :
  fst (checkAndDeployContract update_fails (VString "0x123") [])
  = Thrown (Error "Update failed").
Proof. vm_compute. reflexivity. Qed.

Example checkAndDeployContract_test :
  checkAndDeployContract (world_with (Returned sample_connection) test_reads false)
    (VString "0x123") []
  = (Returned tt,
     [ EvHttpGet "/api/check-user?wallet_id=0x123";
       EvConnect None;
       EvDeployContract (VObject [("contractData", VString "mockContractData")]);
       EvWaitForTransaction (VString "0xabc");
       EvHttpPost "/api/update-user-contract"
         {| wallet_id := VString "0x123"; upd_contract_address := VString "0xdef" |} ]).
Proof. vm_compute. reflexivity. Qed.

(* ===================================================================== *)
(** * Facts about the number library *)
(* ===================================================================== *)

#[local] Open Scope string_scope.
#[local] Open Scope Z_scope.

(** ** [BigInt(z.toString())] is [z] *)

(** Reading the code points of a plain string, dropping the white space
    around them and writing them back changes nothing. *)
Lemma trim_plain s :
  plain s = true -> ascii_string (trim (code_points s)) = Some s.
Proof.
  intros Hp.
  assert (Hc : forall t, plain t = true ->
             trim_right (code_points t) = code_points t
             /\ ascii_string (code_points t) = Some t).
  { induction t as [|c t IH]; intros Ht; [split; reflexivity|].
    cbn [plain] in Ht. apply andb_prop in Ht as [Ht Ht'].
    apply andb_prop in Ht as [Ha Hw]. apply negb_true_iff in Hw.
    destruct (IH Ht') as [IH1 IH2].
    cbn [code_points]. cbv zeta. rewrite Ha.
    cbn [trim_right ascii_string]. rewrite IH1, IH2, Ha, Hw.
    rewrite ascii_N_embedding. split; [|reflexivity].
    destruct (code_points t); reflexivity. }
  unfold trim. destruct s as [|c s]; [reflexivity|].
  destruct (Hc _ Hp) as [H1 H2].
  cbn [plain] in Hp. apply andb_prop in Hp as [Hp _].
  apply andb_prop in Hp as [Ha Hw]. apply negb_true_iff in Hw.
  assert (Hl : trim_left (code_points (String c s)) = code_points (String c s)).
  { cbn [code_points]. cbv zeta. rewrite Ha. cbn [trim_left]. rewrite Hw. reflexivity. }
  rewrite Hl, H1. exact H2.
Qed.

(** Strings of digits are plain. *)
Lemma plain_digits d : plain (NilEmpty.string_of_uint d) = true.
Proof. induction d; cbn [NilEmpty.string_of_uint plain]; try reflexivity; exact IHd. Qed.

(** On a plain string, [BigInt] parses the string itself. *)
Lemma StringToBigInt_plain s :
  plain s = true -> StringToBigInt s = StrIntegerLiteral s.
Proof. intros Hp. unfold StringToBigInt. rewrite (trim_plain s Hp). reflexivity. Qed.

(** The decimal digits of a positive number start with a non-zero digit. *)
Lemma to_uint_head p :
  match Pos.to_uint p with
  | Decimal.Nil | Decimal.D0 _ => False
  | _ => True
  end.
Proof.
  pose proof (DecimalPos.Unsigned.to_uint_nonzero p) as Hz.
  pose proof (DecimalPos.Unsigned.to_of (Pos.to_uint p)) as Hn.
  rewrite DecimalPos.Unsigned.of_to in Hn. simpl in Hn.
  unfold Decimal.unorm in Hn.
  pose proof (nzhead_nonzero (Pos.to_uint p)) as Hh.
  destruct (Decimal.nzhead (Pos.to_uint p)) eqn:E;
    try (rewrite Hn; exact I).
  - exfalso. apply Hz. exact Hn.
  - exfalso. exact (Hh _ eq_refl).
Qed.

(** Parsing the digits of [p] gives [p] back. *)
Lemma parse_decimal_to_uint p :
  parse_decimal (NilEmpty.string_of_uint (Pos.to_uint p)) = Some (Z.pos p).
Proof.
  unfold parse_decimal.
  pose proof (to_uint_head p) as Hh.
  assert (E : option_map Z.of_uint
                (NilEmpty.uint_of_string (NilEmpty.string_of_uint (Pos.to_uint p)))
              = Some (Z.pos p)).
  { rewrite NilEmpty.usu. simpl. unfold Z.of_uint.
    rewrite DecimalPos.Unsigned.of_to. reflexivity. }
  destruct (Pos.to_uint p); try contradiction; exact E.
Qed.

(** A literal starting with a digit other than 0 is a decimal literal. *)
Lemma StrIntegerLiteral_unsigned c rest :
  is_digit c = true -> c <> "0"%char ->
  StrIntegerLiteral (String c rest) = parse_decimal (String c rest).
Proof.
  intros Hd Hz. unfold StrIntegerLiteral.
  destruct c as [[] [] [] [] [] [] [] []]; try discriminate Hd;
    try reflexivity.
  exfalso. apply Hz. reflexivity.
Qed.

Lemma StringToBigInt_pos p :
  StringToBigInt (NilEmpty.string_of_uint (Pos.to_uint p)) = Some (Z.pos p).
Proof.
  rewrite StringToBigInt_plain by apply plain_digits.
  rewrite <- parse_decimal_to_uint.
  pose proof (to_uint_head p) as Hh.
  destruct (Pos.to_uint p); try contradiction;
    apply StrIntegerLiteral_unsigned; try reflexivity; discriminate.
Qed.

Lemma string_of_uint_to_uint p :
  NilZero.string_of_uint (Pos.to_uint p) = NilEmpty.string_of_uint (Pos.to_uint p).
Proof.
  pose proof (to_uint_head p) as Hh.
  destruct (Pos.to_uint p); try contradiction; reflexivity.
Qed.

(** [BigInt(z.toString())] is [z]. *)
Lemma StringToBigInt_toString z :
  StringToBigInt (BigInt_toString z) = Some z.
Proof.
  unfold BigInt_toString. destruct z as [|p|p]; cbn [Z.to_int NilZero.string_of_int].
  - reflexivity.
  - rewrite string_of_uint_to_uint. apply StringToBigInt_pos.
  - rewrite string_of_uint_to_uint.
    rewrite StringToBigInt_plain
      by (cbn [plain]; rewrite plain_digits; reflexivity).
    cbn [StrIntegerLiteral]. rewrite parse_decimal_to_uint. reflexivity.
Qed.

(** [Number(z.toString())] is the double nearest to [z]. *)
Lemma Number_of_string_toString z :
  Number_of_string (BigInt_toString z) = Number_of_Z z.
Proof. unfold Number_of_string. rewrite StringToBigInt_toString. reflexivity. Qed.

(** ** Rounding to binary64 *)

(** One step of the right shift halves a non-negative mantissa. *)
Lemma shr_1_div2 mrs :
  0 <= shr_m mrs -> shr_m (shr_1 mrs) = shr_m mrs / 2.
Proof.
  destruct mrs as [m r s]. cbn [shr_m]. intros Hm.
  rewrite <- Z.div2_div.
  destruct m as [|p|p]; [reflexivity| |lia].
  destruct p; reflexivity.
Qed.

(** [n] steps divide it by [2^n]. *)
Lemma iter_shr_1_div n : forall mrs,
  0 <= shr_m mrs ->
  shr_m (iter_pos shr_1 n mrs) = shr_m mrs / 2 ^ Z.pos n.
Proof.
  induction n as [n IH|n IH|]; intros mrs Hm; cbn [iter_pos].
  - assert (H1 : 0 <= shr_m (shr_1 mrs)).
    { rewrite shr_1_div2 by assumption. apply Z.div_pos; lia. }
    assert (H2 : 0 <= shr_m (iter_pos shr_1 n (shr_1 mrs))).
    { rewrite IH by assumption. apply Z.div_pos; [assumption|]. apply Z.pow_pos_nonneg; lia. }
    rewrite IH by assumption. rewrite IH by assumption.
    rewrite shr_1_div2 by assumption.
    assert (Hp : 0 < 2 ^ Z.pos n) by (apply Z.pow_pos_nonneg; lia).
    rewrite !Z.div_div by lia.
    f_equal. replace (Z.pos n~1) with (1 + Z.pos n + Z.pos n) by lia.
    rewrite !Z.pow_add_r by lia. lia.
  - assert (H2 : 0 <= shr_m (iter_pos shr_1 n mrs)).
    { rewrite IH by assumption. apply Z.div_pos; [assumption|]. apply Z.pow_pos_nonneg; lia. }
    rewrite IH by assumption. rewrite IH by assumption.
    assert (Hp : 0 < 2 ^ Z.pos n) by (apply Z.pow_pos_nonneg; lia).
    rewrite Z.div_div by lia.
    f_equal. replace (Z.pos n~0) with (Z.pos n + Z.pos n) by lia.
    rewrite Z.pow_add_r by lia. reflexivity.
  - rewrite shr_1_div2 by assumption. reflexivity.
Qed.

(** [digits2_pos p] is the bit length of [p]. *)
Lemma digits2_pos_bounds p :
  2 ^ (Z.pos (digits2_pos p) - 1) <= Z.pos p < 2 ^ Z.pos (digits2_pos p).
Proof.
  induction p as [p IH|p IH|]; cbn [digits2_pos].
  - rewrite Pos2Z.inj_succ.
    replace (Z.succ (Z.pos (digits2_pos p)) - 1) with (Z.succ (Z.pos (digits2_pos p) - 1)) by lia.
    rewrite !Z.pow_succ_r by lia. lia.
  - rewrite Pos2Z.inj_succ.
    replace (Z.succ (Z.pos (digits2_pos p)) - 1) with (Z.succ (Z.pos (digits2_pos p) - 1)) by lia.
    rewrite !Z.pow_succ_r by lia. lia.
  - simpl. lia.
Qed.

(** Above the subnormal exponent, rounding a positive mantissa to the
    precision keeps it positive: at most all but one of its bits are shifted
    out. *)
Lemma shr_fexp_pos m e l :
  0 < m -> emin64 <= e ->
  0 < shr_m (fst (shr_fexp prec emax m e l)) /\ emin64 <= snd (shr_fexp prec emax m e l).
Proof.
  intros Hm He. unfold shr_fexp, shr.
  assert (Hr : shr_m (shr_record_of_loc m l) = m).
  { destruct l as [|[]]; reflexivity. }
  destruct (fexp prec emax (Zdigits2 m + e) - e) as [|n|n] eqn:En; cbn [fst snd].
  - rewrite Hr. split; assumption.
  - rewrite iter_shr_1_div by (rewrite Hr; lia). rewrite Hr.
    destruct m as [|p|p]; try lia.
    cbn [Zdigits2] in En.
    pose proof (digits2_pos_bounds p) as [Hlo _].
    unfold fexp in En. fold emin64 in En. unfold prec in En.
    assert (Hn : Z.pos n <= Z.pos (digits2_pos p) - 1) by lia.
    split; [|lia].
    apply Z.div_str_pos. split; [apply Z.pow_pos_nonneg; lia|].
    eapply Z.le_trans; [|exact Hlo].
    apply Z.pow_le_mono_r; lia.
  - rewrite Hr. split; assumption.
Qed.

Lemma round_nearest_even_ge m l : m <= round_nearest_even m l.
Proof.
  unfold round_nearest_even. destruct l as [|[]]; try lia.
  destruct (Z.even m); lia.
Qed.

(** Hence rounding a positive mantissa never gives zero or NaN. *)
Lemma binary_round_aux_pos sx mx ex lx :
  0 < mx -> emin64 <= ex ->
  (exists m e, binary_round_aux prec emax sx mx ex lx = S754_finite sx m e)
  \/ binary_round_aux prec emax sx mx ex lx = S754_infinity sx.
Proof.
  intros Hm He. unfold binary_round_aux.
  pose proof (shr_fexp_pos mx ex lx Hm He) as [H1 H1e].
  destruct (shr_fexp prec emax mx ex lx) as [mrs' e'] eqn:E1. cbn [fst snd] in H1, H1e.
  pose proof (round_nearest_even_ge (shr_m mrs') (loc_of_shr_record mrs')) as Hge.
  pose proof (shr_fexp_pos (round_nearest_even (shr_m mrs') (loc_of_shr_record mrs')) e' loc_Exact
                ltac:(lia) H1e) as [H2 _].
  destruct (shr_fexp prec emax (round_nearest_even (shr_m mrs') (loc_of_shr_record mrs')) e' loc_Exact)
    as [mrs'' e''] eqn:E2. cbn [fst] in H2.
  destruct (shr_m mrs'') as [|m|m]; try lia.
  destruct (e'' <=? emax - prec); [left; eauto | right; reflexivity].
Qed.

(** Rounding keeps the sign it is given. *)
Lemma binary_round_aux_shape sx mx ex lx :
  match binary_round_aux prec emax sx mx ex lx with
  | S754_zero s | S754_infinity s | S754_finite s _ _ => s = sx
  | S754_nan => True
  end.
Proof.
  unfold binary_round_aux.
  destruct (shr_fexp prec emax mx ex lx) as [mrs' e'].
  destruct (shr_fexp prec emax _ e' loc_Exact) as [mrs'' e''].
  destruct (shr_m mrs''); try exact I; try reflexivity.
  destruct (e'' <=? emax - prec); reflexivity.
Qed.

Lemma shl_align_exponent mx ex ex' :
  Z.min ex ex' <= snd (shl_align mx ex ex').
Proof.
  unfold shl_align. destruct (ex' - ex) eqn:E; cbn [snd]; lia.
Qed.

(** The double nearest to a positive integer is positive or +Infinity. *)
Lemma Number_of_Z_pos p :
  (exists m e, Number_of_Z (Z.pos p) = S754_finite false m e)
  \/ Number_of_Z (Z.pos p) = S754_infinity false.
Proof.
  unfold Number_of_Z, binary_normalize, binary_round.
  pose proof (shl_align_exponent p 0 (fexp prec emax (Z.pos (digits2_pos p) + 0))) as Hs.
  destruct (shl_align p 0 (fexp prec emax (Z.pos (digits2_pos p) + 0))) as [mz ez]. cbn [snd] in Hs.
  apply binary_round_aux_pos; [lia|].
  unfold fexp in Hs. fold emin64 in Hs.
  assert (emin64 < 0) by (vm_compute; reflexivity). lia.
Qed.

(** [Number(z) > 0] exactly when [z > 0]. *)
Lemma Number_gt_zero_of_Z z : Number_gt_zero (Number_of_Z z) = (0 <? z).
Proof.
  destruct z as [|p|p].
  - reflexivity.
  - destruct (Number_of_Z_pos p) as [(m & e & ->)| ->]; reflexivity.
  - unfold Number_of_Z, binary_normalize, binary_round.
    destruct (shl_align _ _ _) as [mz ez].
    pose proof (binary_round_aux_shape true (Z.pos mz) ez loc_Exact) as Hs.
    destruct (binary_round_aux prec emax true (Z.pos mz) ez loc_Exact); try subst s; reflexivity.
Qed.

(** A non-negative double divided by a positive finite one is non-negative
    (or NaN, as far as the shape goes). *)
Lemma SFdiv_shape x y m e :
  match x with S754_zero false | S754_finite false _ _ | S754_infinity false => True | _ => False end ->
  y = S754_finite false m e ->
  match Number_div x y with
  | S754_zero s | S754_infinity s | S754_finite s _ _ => s = false
  | S754_nan => True
  end.
Proof.
  intros Hx ->. unfold Number_div, SFdiv.
  destruct x as [[]|[]| |[] mx ex]; try contradiction; try reflexivity.
  destruct (SFdiv_core_binary prec emax (Z.pos mx) ex (Z.pos m) e) as [[mz ez] lz].
  apply (binary_round_aux_shape (xorb false false)).
Qed.

Lemma Number_of_Z_nonneg_shape z :
  0 <= z ->
  match Number_of_Z z with
  | S754_zero false | S754_finite false _ _ | S754_infinity false => True
  | _ => False
  end.
Proof.
  intros Hz. destruct z as [|p|p]; [exact I| |lia].
  destruct (Number_of_Z_pos p) as [(m & e & ->)| ->]; exact I.
Qed.

Lemma SFltb_infinity y : SFltb (S754_infinity false) y = false.
Proof. destruct y as [[]|[]| |[] m e]; reflexivity. Qed.

Lemma SFltb_nan y : SFltb S754_nan y = false.
Proof. reflexivity. Qed.

(** ** Formatting with [toFixed] *)

Lemma all_digits_app a b :
  all_digits (a ++ b) = all_digits a && all_digits b.
Proof.
  induction a as [|c a IH]; cbn [append all_digits]; [reflexivity|].
  rewrite IH. apply andb_assoc.
Qed.

Lemma string_length_app a b :
  String.length (a ++ b) = (String.length a + String.length b)%nat.
Proof. induction a as [|c a IH]; cbn [append String.length]; [reflexivity|]. now rewrite IH. Qed.

Lemma all_digits_zeros k : all_digits (zeros k) = true.
Proof. induction k; cbn [zeros all_digits]; [reflexivity|]. now rewrite IHk. Qed.

Lemma length_zeros k : String.length (zeros k) = k.
Proof. induction k; cbn [zeros String.length]; [reflexivity|]. now rewrite IHk. Qed.

Lemma all_digits_substring s : forall i n,
  all_digits s = true -> all_digits (substring i n s) = true.
Proof.
  induction s as [|c s IH]; intros i n H.
  - destruct i, n; reflexivity.
  - cbn [all_digits] in H. apply andb_prop in H as [Hc Hs].
    destruct i; [destruct n|]; cbn [substring all_digits].
    + reflexivity.
    + rewrite Hc. apply IH. exact Hs.
    + apply IH. exact Hs.
Qed.

Lemma length_substring s : forall i n,
  (i + n <= String.length s)%nat -> String.length (substring i n s) = n.
Proof.
  induction s as [|c s IH]; intros i n H; cbn [String.length] in H.
  - destruct i, n; try reflexivity; lia.
  - destruct i; [destruct n|]; cbn [substring String.length].
    + reflexivity.
    + f_equal. apply IH. lia.
    + apply IH. lia.
Qed.

Lemma is_digit_not_point c : is_digit c = true -> Ascii.eqb c "." = false.
Proof.
  intros H. destruct (Ascii.eqb_spec c "."); [subst; discriminate H|reflexivity].
Qed.

Lemma is_digit_not_minus c : is_digit c = true -> Ascii.eqb c "-" = false.
Proof.
  intros H. destruct (Ascii.eqb_spec c "-"); [subst; discriminate H|reflexivity].
Qed.

Lemma split_at_point_digits a b :
  all_digits a = true -> split_at_point (a ++ String "." b) = Some (a, b).
Proof.
  induction a as [|c a IH]; intros H; cbn [append split_at_point].
  - reflexivity.
  - cbn [all_digits] in H. apply andb_prop in H as [Hc Ha].
    rewrite (is_digit_not_point c Hc), (IH Ha). reflexivity.
Qed.

(** Digits, a point, [k] digits: [k] fractional digits. *)
Lemma fraction_digits_are_pointed a b k :
  all_digits a = true -> all_digits b = true ->
  (1 <= String.length a)%nat -> String.length b = k ->
  fraction_digits_are k (a ++ String "." b) = true.
Proof.
  intros Ha Hb Hla Hlb. unfold fraction_digits_are.
  destruct a as [|c a]; [cbn in Hla; lia|].
  cbn [append]. pose proof Ha as Ha'. cbn [all_digits] in Ha'.
  apply andb_prop in Ha' as [Hc _].
  rewrite (is_digit_not_minus c Hc).
  change (String c (a ++ String "." b)) with (String c a ++ String "." b).
  rewrite (split_at_point_digits _ _ Ha), Ha, Hb, Hlb, Nat.eqb_refl.
  reflexivity.
Qed.

Lemma all_digits_string_of_uint d : all_digits (NilEmpty.string_of_uint d) = true.
Proof. induction d; cbn [NilEmpty.string_of_uint all_digits]; try reflexivity; exact IHd. Qed.

Lemma digits_of_digits n :
  all_digits (digits_of n) = true /\ (1 <= String.length (digits_of n))%nat.
Proof.
  unfold digits_of, NilZero.string_of_uint.
  destruct (N.to_uint (Z.to_N n)) eqn:E;
    try (split; [apply (all_digits_string_of_uint (_ u)) | cbn; lia]).
  split; [reflexivity | cbn; lia].
Qed.

(** Steps 11.a-11.c of toFixed always produce [f] fractional digits. *)
Lemma fixed_digits_fraction n f :
  (1 <= f)%nat -> fraction_digits_are f (fixed_digits n f) = true.
Proof.
  intros Hf. unfold fixed_digits.
  destruct (digits_of_digits n) as [Hd Hl].
  set (m := digits_of n) in *.
  set (m' := if (String.length m <=? f)%nat
             then zeros (f + 1 - String.length m) ++ m else m).
  assert (Hd' : all_digits m' = true).
  { subst m'. destruct (String.length m <=? f)%nat; [|exact Hd].
    rewrite all_digits_app, all_digits_zeros, Hd. reflexivity. }
  assert (Hl' : (f + 1 <= String.length m')%nat).
  { subst m'. destruct (Nat.leb_spec (String.length m) f).
    - rewrite string_length_app, length_zeros. lia.
    - lia. }
  destruct f as [|f']; [lia|].
  apply fraction_digits_are_pointed.
  - apply all_digits_substring. exact Hd'.
  - apply all_digits_substring. exact Hd'.
  - rewrite length_substring; lia.
  - apply length_substring. lia.
Qed.

(** On positive finite doubles, [x < y] excludes [y <= x]. *)
Lemma SFcompare_finite_antisym m e m2 e2 :
  SFltb (S754_finite false m e) (S754_finite false m2 e2) = true ->
  SFleb (S754_finite false m2 e2) (S754_finite false m e) = false.
Proof.
  unfold SFltb, SFleb, SFcompare.
  rewrite (Z.compare_antisym e e2).
  destruct (e ?= e2); cbn [CompOpp]; try discriminate; try reflexivity.
  change (Pos.compare_cont Eq m m2) with (Pos.compare m m2).
  change (Pos.compare_cont Eq m2 m) with (Pos.compare m2 m).
  rewrite (Pos.compare_antisym m m2).
  destruct (m ?= m2)%positive; cbn [CompOpp]; try discriminate; reflexivity.
Qed.

(** Below 10^21 a non-negative double is formatted with [f] fractional
    digits. *)
Lemma toFixed_below_ten21 x f :
  (1 <= f)%nat ->
  match x with S754_zero _ | S754_finite false _ _ => True | _ => False end ->
  SFltb x ten21 = true ->
  fraction_digits_are f (toFixed x f) = true.
Proof.
  intros Hf Hx Hlt. destruct x as [s|s| |s m e]; try contradiction.
  - cbn [toFixed]. apply fixed_digits_fraction. exact Hf.
  - destruct s; [contradiction|]. cbn [toFixed].
    assert (Ht : ten21 = S754_finite false 7629394531250000 17) by (vm_compute; reflexivity).
    rewrite Ht in *.
    rewrite (SFcompare_finite_antisym _ _ _ _ Hlt).
    cbn [append]. apply fixed_digits_fraction. exact Hf.
Qed.

#[local] Open Scope list_scope.

(* ===================================================================== *)
(** * The services *)
(* ===================================================================== *)

(** A run that appended [new] to [h] added exactly [new]. *)
Lemma events_since_app (h new : history) : events_since h (h ++ new) = new.
Proof. unfold events_since. induction h as [|ev h IH]; [reflexivity|exact IH]. Qed.

(** Unfolds the monad in the goal. *)
Ltac run :=
  cbv beta delta [bind ret throw try_catch call emit console_log console_error alert];
  cbn beta iota.

Section CRM.

Variable w : World.

(** The run of [checkForCRMToken] outside development mode when the wallet
    connects and the read resolves to a first word denoting [z]. *)
Lemma checkForCRMToken_run walletAddress h conn wl acc word rest z :
  is_dev w = false ->
  connect w h None = Returned conn ->
  wallet conn = Some wl ->
  account wl = Some acc ->
  callContract w (h ++ [EvConnect None]) (balanceOf CRM_TOKEN_ADDRESS walletAddress)
    = Returned (word :: rest) ->
  StringToBigInt word = Some z ->
  checkForCRMToken w walletAddress h
  = (Returned (0 <? z),
     h ++ [EvConnect None; EvCallContract (balanceOf CRM_TOKEN_ADDRESS walletAddress)]
       ++ (if 0 <? z then [] else [EvAlert crm_alert])).
Proof.
  intros Hdev Hc Hw Ha Hr Hz.
  unfold checkForCRMToken. rewrite Hdev.
  unfold account_callContract, BigInt_first. run.
  rewrite Hc, Hw, Ha. run. rewrite Hr. cbn beta iota. rewrite Hz. cbn beta iota.
  rewrite Number_of_string_toString, Number_gt_zero_of_Z.
  destruct (0 <? z); rewrite <- !app_assoc; reflexivity.
Qed.

End CRM.

(** Counting distributes over the concatenation of histories. *)
Lemma count_app p (a b : list event) : count p (a ++ b) = (count p a + count p b)%nat.
Proof. unfold count. rewrite filter_app, List.length_app. reflexivity. Qed.

Section Wallet.

Variable w : World.
Variables ETH_ADDRESS USDC_ADDRESS STRK_ADDRESS : string.

Abbreviation getTokenBalance := (getTokenBalance w USDC_ADDRESS).
Abbreviation getTokenBalances := (getTokenBalances w ETH_ADDRESS USDC_ADDRESS STRK_ADDRESS).
Abbreviation getBalances := (getBalances w ETH_ADDRESS USDC_ADDRESS STRK_ADDRESS).
Abbreviation read_string := (read_string w USDC_ADDRESS).
Abbreviation read_events := (read_events w USDC_ADDRESS).

(** [Number(balance) / (10 ** tokenDecimals)], formatted, is the formatted
    balance. *)
Lemma readableBalance_formatted tokenAddress z :
  readableBalance USDC_ADDRESS tokenAddress z = formatted_balance USDC_ADDRESS tokenAddress z.
Proof.
  unfold readableBalance, formatted_balance, tokenDecimals.
  rewrite Number_of_string_toString. reflexivity.
Qed.

(** The run of [getTokenBalance], whatever the world answers to the read. *)
Lemma getTokenBalance_exact wl walletAddress tokenAddress h :
  getTokenBalance wl walletAddress tokenAddress h
  = (Returned (VString (read_string wl walletAddress tokenAddress h)),
     h ++ read_events wl walletAddress tokenAddress h).
Proof.
  unfold WalletService.getTokenBalance, Observe.read_string, Observe.read_events,
    balance_read, fetch_logged, account_callContract, BigInt_first, balanceOf.
  run.
  destruct (account wl) as [acc|]; cbn beta iota; [|reflexivity].
  destruct (callContract w h _) as [[|word rest]|e]; cbn beta iota;
    try (rewrite <- app_assoc; reflexivity).
  destruct (StringToBigInt word) as [z|]; cbn beta iota;
    rewrite <- ?readableBalance_formatted, <- app_assoc; reflexivity.
Qed.

(** [getTokenBalance] never throws and never invokes the callback. *)
Lemma getTokenBalance_run wl walletAddress tokenAddress h :
  exists s evs,
    getTokenBalance wl walletAddress tokenAddress h = (Returned (VString s), h ++ evs)
    /\ s = read_string wl walletAddress tokenAddress h
    /\ count is_setBalances evs = 0%nat.
Proof.
  exists (read_string wl walletAddress tokenAddress h),
         (read_events wl walletAddress tokenAddress h).
  split; [apply getTokenBalance_exact|]. split; [reflexivity|].
  unfold Observe.read_events, fetch_logged.
  destruct (account wl);
    destruct (balance_read w wl walletAddress tokenAddress h); reflexivity.
Qed.

(** With a connected wallet, [getTokenBalances] is the three reads in the
    order ETH, USDC, STRK, each starting where the previous one stopped. *)
Lemma getTokenBalances_run walletAddress h conn wl :
  connect w h None = Returned conn ->
  wallet conn = Some wl ->
  exists eth usdc strk evs2 evs3 evs4,
    let h1 := h ++ [EvConnect None] in
    let h2 := h1 ++ evs2 in
    let h3 := h2 ++ evs3 in
    let h4 := h3 ++ evs4 in
    getTokenBalance wl walletAddress ETH_ADDRESS h1 = (Returned (VString eth), h2)
    /\ getTokenBalance wl walletAddress USDC_ADDRESS h2 = (Returned (VString usdc), h3)
    /\ getTokenBalance wl walletAddress STRK_ADDRESS h3 = (Returned (VString strk), h4)
    /\ eth = read_string wl walletAddress ETH_ADDRESS h1
    /\ usdc = read_string wl walletAddress USDC_ADDRESS h2
    /\ strk = read_string wl walletAddress STRK_ADDRESS h3
    /\ count is_setBalances ([EvConnect None] ++ evs2 ++ evs3 ++ evs4) = 0%nat
    /\ getTokenBalances walletAddress h
       = (Returned {| ETH := VString eth; USDC := VString usdc; STRK := VString strk |}, h4).
Proof.
  intros Hc Hw.
  destruct (getTokenBalance_run wl walletAddress ETH_ADDRESS (h ++ [EvConnect None]))
    as (eth & evs2 & He & Pe & Ce).
  destruct (getTokenBalance_run wl walletAddress USDC_ADDRESS ((h ++ [EvConnect None]) ++ evs2))
    as (usdc & evs3 & Hu & Pu & Cu).
  destruct (getTokenBalance_run wl walletAddress STRK_ADDRESS
              (((h ++ [EvConnect None]) ++ evs2) ++ evs3))
    as (strk & evs4 & Hs & Ps & Cs).
  exists eth, usdc, strk, evs2, evs3, evs4. cbv zeta.
  repeat split; try assumption.
  - rewrite !count_app, Ce, Cu, Cs. reflexivity.
  - unfold WalletService.getTokenBalances. run. rewrite Hc, Hw. cbn beta iota.
    rewrite He. cbn beta iota. rewrite Hu. cbn beta iota. rewrite Hs. reflexivity.
Qed.

(** What a run of [getTokenBalances] adds to the history never contains a
    callback invocation, and a successful result has three string fields. *)
Lemma getTokenBalances_outcome walletAddress h :
  exists evs,
    snd (getTokenBalances walletAddress h) = h ++ evs
    /\ count is_setBalances evs = 0%nat
    /\ match fst (getTokenBalances walletAddress h) with
       | Returned data =>
           exists eth usdc strk,
             data = {| ETH := VString eth; USDC := VString usdc; STRK := VString strk |}
       | Thrown _ => True
       end.
Proof.
  destruct (connect w h None) as [conn|e] eqn:Hc.
  - destruct (wallet conn) as [wl|] eqn:Hw.
    + destruct (getTokenBalances_run walletAddress h conn wl Hc Hw)
        as (eth & usdc & strk & evs2 & evs3 & evs4 & _ & _ & _ & _ & _ & _ & Hn & Hr).
      cbv zeta in Hr. rewrite Hr. cbn [fst snd].
      exists ([EvConnect None] ++ evs2 ++ evs3 ++ evs4). split.
      * rewrite <- !app_assoc. reflexivity.
      * split; [exact Hn|]. exists eth, usdc, strk. reflexivity.
    + unfold WalletService.getTokenBalances. run. rewrite Hc, Hw. cbn [fst snd].
      eexists. split; [rewrite <- app_assoc; reflexivity|]. split; [reflexivity|exact I].
  - unfold WalletService.getTokenBalances. run. rewrite Hc. cbn [fst snd].
    eexists. split; [rewrite <- app_assoc; reflexivity|]. split; [reflexivity|exact I].
Qed.

(** The three ways a run of [getBalances] on a truthy wallet id can go. *)
Lemma getBalances_run walletId setBalances h :
  truthy walletId = true ->
  exists evs, snd (getTokenBalances walletId h) = h ++ evs
    /\ count is_setBalances evs = 0%nat
    /\ match fst (getTokenBalances walletId h) with
       | Thrown e =>
           getBalances walletId setBalances h
           = (Returned tt,
              h ++ evs ++ [EvConsoleError [LStr "Error fetching user balances:"; LErr e]])
       | Returned data =>
           exists eth usdc strk,
             data = {| ETH := VString eth; USDC := VString usdc; STRK := VString strk |}
             /\ getBalances walletId setBalances h
                = (Returned tt,
                   h ++ evs ++ [EvSetBalances (entry_list eth usdc strk)]
                     ++ match setBalances (h ++ evs) (entry_list eth usdc strk) with
                        | Returned _ => []
                        | Thrown e =>
                            [EvConsoleError [LStr "Error fetching user balances:"; LErr e]]
                        end)
       end.
Proof.
  intros Ht.
  destruct (getTokenBalances_outcome walletId h) as (evs & Hs & Hn & Hf).
  exists evs. split; [exact Hs|]. split; [exact Hn|].
  unfold WalletService.getBalances. rewrite Ht. cbn [negb]. run.
  destruct (getTokenBalances walletId h) as [[data|e] h'] eqn:Hr; cbn [fst snd] in *; subst h'.
  - destruct Hf as (eth & usdc & strk & ->). exists eth, usdc, strk.
    split; [reflexivity|]. cbn [ETH USDC STRK balance_or_default to_display]. run.
    fold (entry_list eth usdc strk).
    destruct (setBalances (h ++ evs) (entry_list eth usdc strk)) as [[]|e];
      rewrite <- ?app_assoc; cbn [app]; rewrite ?List.app_nil_r; reflexivity.
  - rewrite <- app_assoc. reflexivity.
Qed.

End Wallet.

(** No event of a kind that was counted zero times occurs. *)
Lemma count_zero_In p (evs : list event) ev :
  count p evs = 0%nat -> In ev evs -> p ev = false.
Proof.
  unfold count. induction evs as [|a evs IH]; intros Hc Hin; [contradiction|].
  cbn [filter] in Hc. destruct (p a) eqn:Hpa; [discriminate Hc|].
  destruct Hin as [<-|Hin]; [exact Hpa|exact (IH Hc Hin)].
Qed.

(* ---------------------------------------------------------------- C1 *)

(** The run of [checkAndDeployContract] when the backend says "deployed". *)
Lemma checkAndDeployContract_deployed_run
    (w : World) (walletId : value) (h : history) (r : CheckUser) :
  http_get w h (check_user_url walletId) = Returned r ->
  is_contract_deployed r = true ->
  checkAndDeployContract w walletId h
    = (Returned tt, h ++ [EvHttpGet (check_user_url walletId)]).
Proof.
  intros Hg Hd. unfold checkAndDeployContract. run.
  rewrite Hg. cbn beta iota. rewrite Hd. reflexivity.
Qed.

(** A run that did call the connector was told by the backend that the
    contract is not deployed. *)
Lemma checkAndDeployContract_connector_only_if_not_deployed
    (w : World) (walletId : value) (h : history) :
  (0 < count is_connector_call
         (events_since h (snd (checkAndDeployContract w walletId h))))%nat ->
  exists r, http_get w h (check_user_url walletId) = Returned r
            /\ is_contract_deployed r = false.
Proof.
  destruct (http_get w h (check_user_url walletId)) as [r|e] eqn:Hg.
  - destruct (is_contract_deployed r) eqn:Hd.
    + rewrite (checkAndDeployContract_deployed_run w walletId h r Hg Hd).
      cbn [snd]. rewrite events_since_app. cbn. intros Hlt. inversion Hlt.
    + intros _. exists r. split; [reflexivity|exact Hd].
  - unfold checkAndDeployContract. run. rewrite Hg. cbn [snd].
    rewrite <- app_assoc, events_since_app. cbn. intros Hlt. inversion Hlt.
Qed.

(** C1. When the backend's answer to GET /api/check-user says the contract is
    deployed, [checkAndDeployContract] returns normally having made no call
    on the wallet connector (no connect, no deployment, no wait) and no POST:
    the only call it made is the GET. Conversely, a run in which the
    connector was called is one where the backend answered "not deployed". *)
Theorem checkAndDeployContract_skips_when_deployed
    (w : World) (walletId : value) (h : history) :
  let run := checkAndDeployContract w walletId h in
  (forall r,
     http_get w h (check_user_url walletId) = Returned r ->
     is_contract_deployed r = true ->
     run = (Returned tt, h ++ [EvHttpGet (check_user_url walletId)])
     /\ count is_connector_call (events_since h (snd run)) = 0%nat
     /\ count is_http_post (events_since h (snd run)) = 0%nat)
  /\ ((0 < count is_connector_call (events_since h (snd run)))%nat ->
      exists r, http_get w h (check_user_url walletId) = Returned r
                /\ is_contract_deployed r = false).
Proof.
  intros run. subst run. split.
  - intros r Hg Hd.
    rewrite (checkAndDeployContract_deployed_run w walletId h r Hg Hd).
    cbn [snd]. rewrite events_since_app. repeat split.
  - apply checkAndDeployContract_connector_only_if_not_deployed.
Qed.

Lemma checkAndDeployContract_skips_when_deployed_witness :
  let w := world_with (Returned sample_connection) test_reads true in
  let run := checkAndDeployContract w (VString "0x123") [] in
  run = (Returned tt, [EvHttpGet "/api/check-user?wallet_id=0x123"])
  /\ count is_connector_call (events_since [] (snd run)) = 0%nat
  /\ count is_http_post (events_since [] (snd run)) = 0%nat.
Proof.
  exact (proj1 (checkAndDeployContract_skips_when_deployed
                  (world_with (Returned sample_connection) test_reads true)
                  (VString "0x123") [])
           {| is_contract_deployed := true |} eq_refl eq_refl).
Defined.

(* ---------------------------------------------------------------- C6 *)

(** C6. When the connector reports a disconnected session, [deployContract]
    rejects with an error whose message is exactly "Wallet not connected",
    and the only call it has made by then is the connect: no
    [account.deployContract]. *)
Theorem deployContract_rejects_when_disconnected
    (w : World) (walletId : value) (h : history) (conn : Connection) :
  connect w h None = Returned conn ->
  isConnected conn = false ->
  deployContract w walletId h
    = (Thrown (Error "Wallet not connected"), h ++ [EvConnect None])
  /\ message (Error "Wallet not connected") = "Wallet not connected"%string
  /\ count is_deploy (events_since h (snd (deployContract w walletId h))) = 0%nat.
Proof.
  intros Hc Hi.
  assert (E : deployContract w walletId h
              = (Thrown (Error "Wallet not connected"), h ++ [EvConnect None])).
  { unfold deployContract. run. rewrite Hc. cbn beta iota. rewrite Hi. reflexivity. }
  rewrite E. cbn [snd]. rewrite events_since_app. repeat split.
Qed.

Lemma deployContract_rejects_when_disconnected_witness :
  let w := world_with (Returned disconnected) test_reads false in
  deployContract w (VString "0x123") []
    = (Thrown (Error "Wallet not connected"), [EvConnect None])
  /\ message (Error "Wallet not connected") = "Wallet not connected"%string
  /\ count is_deploy (events_since [] (snd (deployContract w (VString "0x123") []))) = 0%nat.
Proof.
  exact (deployContract_rejects_when_disconnected
           (world_with (Returned disconnected) test_reads false)
           (VString "0x123") [] disconnected eq_refl eq_refl).
Defined.

(* ---------------------------------------------------------------- C7 *)

(** C7. When the backend reports the contract as not deployed and the
    deployment succeeds (connected session with an account, deploy resolving
    to [{transaction_hash: t, contract_address: a}], the wait resolving),
    [checkAndDeployContract] makes exactly these calls, in this order:
    the GET, connect, [deployContract(payload)], [waitForTransaction(t)],
    and then POST /api/update-user-contract with body
    [{wallet_id: walletId, contract_address: a}]. Its outcome is the one of
    the POST (a rejection being logged first). *)
Theorem checkAndDeployContract_reports_deployment
    (w : World) (walletId : value) (h : history) (r : CheckUser)
    (conn : Connection) (acc : Account) (t a : value) :
  let payload := getDeployContractData w walletId in
  let body := {| wallet_id := walletId; upd_contract_address := a |} in
  let h1 := h ++ [EvHttpGet (check_user_url walletId)] in
  let h2 := h1 ++ [EvConnect None] in
  let h3 := h2 ++ [EvDeployContract payload] in
  let h4 := h3 ++ [EvWaitForTransaction t] in
  http_get w h (check_user_url walletId) = Returned r ->
  is_contract_deployed r = false ->
  connect w h1 None = Returned conn ->
  isConnected conn = true ->
  conn_account conn = Some acc ->
  deployContract_rpc w h2 payload
    = Returned {| transaction_hash := t; contract_address := a |} ->
  waitForTransaction w h3 t = Returned tt ->
  checkAndDeployContract w walletId h
  = match http_post w h4 update_user_contract_url body with
    | Returned u =>
        (Returned u,
         h ++ [ EvHttpGet (check_user_url walletId); EvConnect None;
                EvDeployContract payload; EvWaitForTransaction t;
                EvHttpPost update_user_contract_url body ])
    | Thrown e =>
        (Thrown e,
         h ++ [ EvHttpGet (check_user_url walletId); EvConnect None;
                EvDeployContract payload; EvWaitForTransaction t;
                EvHttpPost update_user_contract_url body;
                EvConsoleError [LStr "Error checking contract status:"; LErr e] ])
    end.
Proof.
  intros payload body h1 h2 h3 h4 Hg Hd Hc Hi Ha Hp Hw.
  unfold checkAndDeployContract, deployContract, account_deployContract,
    account_waitForTransaction.
  run. rewrite Hg. cbn beta iota. rewrite Hd.
  fold h1. rewrite Hc. cbn beta iota. rewrite Hi. cbn [negb]. rewrite Ha.
  fold payload. fold h2. rewrite Hp. cbn beta iota.
  cbn [transaction_hash contract_address contractAddress_]. fold h3. rewrite Hw.
  cbn [contractAddress_]. fold body. fold h4.
  destruct (http_post w h4 update_user_contract_url body) as [u|e];
    subst h4 h3 h2 h1; rewrite <- !app_assoc; reflexivity.
Qed.

Lemma checkAndDeployContract_reports_deployment_witness :
  checkAndDeployContract (world_with (Returned sample_connection) test_reads false)
    (VString "0x123") []
  = (Returned tt,
     [ EvHttpGet "/api/check-user?wallet_id=0x123";
       EvConnect None;
       EvDeployContract (VObject [("contractData"%string, VString "mockContractData")]);
       EvWaitForTransaction (VString "0xabc");
       EvHttpPost "/api/update-user-contract"
         {| wallet_id := VString "0x123"; upd_contract_address := VString "0xdef" |} ]).
Proof.
  exact (checkAndDeployContract_reports_deployment
           (world_with (Returned sample_connection) test_reads false)
           (VString "0x123") [] {| is_contract_deployed := false |}
           sample_connection sample_account (VString "0xabc") (VString "0xdef")
           eq_refl eq_refl eq_refl eq_refl eq_refl eq_refl eq_refl).
Defined.

(* ---------------------------------------------------------------- C2 *)

(** C2. Once the wallet is connected, [getTokenBalances] resolves whatever the
    world answers to the three contract reads, issued in the order ETH, USDC,
    STRK. Each token's balance is decided by the answer to that token's own
    read alone: it is ['0'] when that read fails (there is no account to
    call, the call rejects, the answer has no first word or one that is no
    integer), and the balance the contract answered, formatted, when it
    succeeds. So a call of [getTokenBalances] that rejects is one whose
    connection failed. *)
Theorem getTokenBalances_partial_failure
    (w : World) (ETH_ADDRESS USDC_ADDRESS STRK_ADDRESS : string)
    (walletAddress : value) (h : history) (conn : Connection) (wl : Wallet) :
  connect w h None = Returned conn ->
  wallet conn = Some wl ->
  let read := read_string w USDC_ADDRESS wl walletAddress in
  let events := read_events w USDC_ADDRESS wl walletAddress in
  let h1 := h ++ [EvConnect None] in
  let h2 := h1 ++ events ETH_ADDRESS h1 in
  let h3 := h2 ++ events USDC_ADDRESS h2 in
  getTokenBalances w ETH_ADDRESS USDC_ADDRESS STRK_ADDRESS walletAddress h
    = (Returned {| ETH := VString (read ETH_ADDRESS h1);
                   USDC := VString (read USDC_ADDRESS h2);
                   STRK := VString (read STRK_ADDRESS h3) |},
       h3 ++ events STRK_ADDRESS h3)
  /\ (forall tokenAddress h',
        (forall e, balance_read w wl walletAddress tokenAddress h' = Thrown e ->
           read tokenAddress h' = "0"%string)
        /\ (forall z, balance_read w wl walletAddress tokenAddress h' = Returned z ->
              read tokenAddress h' = formatted_balance USDC_ADDRESS tokenAddress z)).
Proof.
  intros Hc Hw read events h1 h2 h3. subst read events h1 h2 h3. split.
  - unfold WalletService.getTokenBalances. run. rewrite Hc, Hw. cbn beta iota.
    rewrite !getTokenBalance_exact. reflexivity.
  - intros tokenAddress h'. unfold read_string.
    split; [intros e ->|intros z ->]; reflexivity.
Qed.

Lemma getTokenBalances_partial_failure_witness :
  let w := usdc_fails_world in
  let addr := VString "0x123" in
  let read := read_string w usdc_address sample_wallet addr in
  let events := read_events w usdc_address sample_wallet addr in
  let h1 := [] ++ [EvConnect None] in
  let h2 := h1 ++ events eth_address h1 in
  let h3 := h2 ++ events usdc_address h2 in
  getTokenBalances w eth_address usdc_address strk_address addr []
    = (Returned {| ETH := VString (read eth_address h1);
                   USDC := VString (read usdc_address h2);
                   STRK := VString (read strk_address h3) |},
       h3 ++ events strk_address h3)
  /\ (forall tokenAddress h',
        (forall e, balance_read w sample_wallet addr tokenAddress h' = Thrown e ->
           read tokenAddress h' = "0"%string)
        /\ (forall z, balance_read w sample_wallet addr tokenAddress h' = Returned z ->
              read tokenAddress h' = formatted_balance usdc_address tokenAddress z)).
Proof.
  exact (getTokenBalances_partial_failure usdc_fails_world
           eth_address usdc_address strk_address (VString "0x123") []
           sample_connection sample_wallet eq_refl eq_refl).
Defined.

(* ---------------------------------------------------------------- C3 *)

(** [10 ** tokenDecimals] is a positive finite double for both decimal
    counts. *)
Lemma Number_pow10_decimals USDC_ADDRESS tokenAddress :
  exists m e,
    Number_pow10 (tokenDecimals USDC_ADDRESS tokenAddress) = S754_finite false m e.
Proof.
  unfold tokenDecimals. destruct (String.eqb tokenAddress USDC_ADDRESS).
  - exists 8589934592000000%positive, (-33). vm_compute. reflexivity.
  - exists 7812500000000000%positive, 7. vm_compute. reflexivity.
Qed.

(** C3, as the code has it. The conversion uses 6 decimals exactly when the
    token address is the USDC address and 18 otherwise, and for every
    non-negative balance whose quotient by [10 ** decimals] is below 10^21
    the formatted string has exactly four fractional digits. *)
Theorem readableBalance_four_fraction_digits
    (USDC_ADDRESS tokenAddress : string) (z : Z) :
  0 <= z ->
  SFltb (quotient USDC_ADDRESS tokenAddress z) ten21 = true ->
  (tokenAddress = USDC_ADDRESS -> tokenDecimals USDC_ADDRESS tokenAddress = 6)
  /\ (tokenAddress <> USDC_ADDRESS -> tokenDecimals USDC_ADDRESS tokenAddress = 18)
  /\ readableBalance USDC_ADDRESS tokenAddress z
       = toFixed (quotient USDC_ADDRESS tokenAddress z) 4
  /\ fraction_digits_are 4 (readableBalance USDC_ADDRESS tokenAddress z) = true.
Proof.
  intros Hz Hlt. split; [|split; [|split]].
  - intros ->. unfold tokenDecimals. rewrite String.eqb_refl. reflexivity.
  - intros Hne. unfold tokenDecimals.
    destruct (String.eqb_spec tokenAddress USDC_ADDRESS); [contradiction|reflexivity].
  - reflexivity.
  - change (readableBalance USDC_ADDRESS tokenAddress z)
      with (toFixed (quotient USDC_ADDRESS tokenAddress z) 4).
    apply toFixed_below_ten21; [lia| |exact Hlt].
    unfold quotient in *. rewrite Number_of_string_toString in *.
    destruct (Number_pow10_decimals USDC_ADDRESS tokenAddress) as (m & e & Hp).
    pose proof (SFdiv_shape (Number_of_Z z) _ m e (Number_of_Z_nonneg_shape z Hz) Hp) as Hs.
    destruct (Number_div (Number_of_Z z)
                (Number_pow10 (tokenDecimals USDC_ADDRESS tokenAddress)))
      as [s|s| |s m' e'].
    + exact I.
    + subst s. rewrite SFltb_infinity in Hlt. discriminate Hlt.
    + rewrite SFltb_nan in Hlt. discriminate Hlt.
    + subst s. exact I.
Qed.

Lemma readableBalance_four_fraction_digits_witness :
  (usdc_address = usdc_address -> tokenDecimals usdc_address usdc_address = 6)
  /\ (usdc_address <> usdc_address -> tokenDecimals usdc_address usdc_address = 18)
  /\ readableBalance usdc_address usdc_address 2000000
       = toFixed (quotient usdc_address usdc_address 2000000) 4
  /\ fraction_digits_are 4 (readableBalance usdc_address usdc_address 2000000) = true.
Proof.
  apply (readableBalance_four_fraction_digits usdc_address usdc_address 2000000).
  - lia.
  - vm_compute. reflexivity.
Defined.

(** C3 does not hold for every balance: 10^27 base units of USDC are
    formatted as "1e+21", which has no fractional digits at all. *)
Lemma readableBalance_exponential_notation :
  0 <= 10 ^ 27
  /\ readableBalance usdc_address usdc_address (10 ^ 27) = "1e+21"%string
  /\ fraction_digits_are 4 (readableBalance usdc_address usdc_address (10 ^ 27)) = false.
Proof. repeat split; vm_compute; congruence. Qed.

(** In development mode [checkForCRMToken] returns [true] after logging, with
    no call on the connector. *)
Lemma checkForCRMToken_dev_mode (w : World) (walletAddress : value) (h : history) :
  is_dev w = true ->
  checkForCRMToken w walletAddress h
  = (Returned true,
     h ++ [EvConsoleLog [LStr "Development mode: Skipping CRM token check."]]).
Proof. intros Hdev. unfold checkForCRMToken. rewrite Hdev. reflexivity. Qed.

(* ---------------------------------------------------------------- C4 *)

(** C4. Outside development mode, with a connected wallet whose [balanceOf]
    read resolves to a balance [z]: if [z] is zero [checkForCRMToken] returns
    [false] after exactly one alert; if [z] is positive it returns [true]
    with no alert; and over the unsigned balances it returns [false] exactly
    when [z] is zero. *)
Theorem checkForCRMToken_false_iff_zero_balance
    (w : World) (walletAddress : value) (h : history) (conn : Connection)
    (wl : Wallet) (acc : Account) (word : string) (rest : list string) (z : Z) :
  is_dev w = false ->
  connect w h None = Returned conn ->
  wallet conn = Some wl ->
  account wl = Some acc ->
  callContract w (h ++ [EvConnect None]) (balanceOf CRM_TOKEN_ADDRESS walletAddress)
    = Returned (word :: rest) ->
  StringToBigInt word = Some z ->
  0 <= z ->
  let result := fst (checkForCRMToken w walletAddress h) in
  let alerts := count is_alert (events_since h (snd (checkForCRMToken w walletAddress h))) in
  (z = 0 -> result = Returned false /\ alerts = 1%nat)
  /\ (0 < z -> result = Returned true /\ alerts = 0%nat)
  /\ (result = Returned false <-> z = 0)
  /\ (alerts = 1%nat <-> z = 0).
Proof.
  intros Hdev Hc Hw Ha Hr Hz Hnn result alerts. subst result alerts.
  rewrite (checkForCRMToken_run w walletAddress h conn wl acc word rest z
             Hdev Hc Hw Ha Hr Hz).
  cbn [fst snd]. rewrite events_since_app.
  destruct (Z.ltb_spec 0 z) as [Hpos|Hle].
  - repeat split; try lia; try discriminate.
    all: intros H; try discriminate H; cbn in H; try discriminate H.
  - assert (z = 0) by lia. subst z. repeat split; try lia; try discriminate.
Qed.

Lemma checkForCRMToken_false_iff_zero_balance_witness :
  let w := world_with (Returned sample_connection) (crm_reads ["0"%string]) false in
  let result := fst (checkForCRMToken w (VString "0x123") []) in
  let alerts := count is_alert
                  (events_since [] (snd (checkForCRMToken w (VString "0x123") []))) in
  (0 = 0 -> result = Returned false /\ alerts = 1%nat)
  /\ (0 < 0 -> result = Returned true /\ alerts = 0%nat)
  /\ (result = Returned false <-> 0 = 0)
  /\ (alerts = 1%nat <-> 0 = 0).
Proof.
  apply (checkForCRMToken_false_iff_zero_balance
           (world_with (Returned sample_connection) (crm_reads ["0"%string]) false)
           (VString "0x123") [] sample_connection sample_wallet sample_account
           "0"%string [] 0); first [reflexivity | lia].
Defined.

(* ---------------------------------------------------------------- C9 *)

(** C9. Only the first word of the response is read: whenever it is zero,
    [checkForCRMToken] raises the alert and returns [false], whatever words
    follow. In particular a u256 balance with a zero low word and a positive
    high word, which is a positive balance, is rejected. *)
Theorem checkForCRMToken_reads_first_word_only
    (w : World) (walletAddress : value) (h : history) (conn : Connection)
    (wl : Wallet) (acc : Account) (low : string) (rest : list string) :
  is_dev w = false ->
  connect w h None = Returned conn ->
  wallet conn = Some wl ->
  account wl = Some acc ->
  callContract w (h ++ [EvConnect None]) (balanceOf CRM_TOKEN_ADDRESS walletAddress)
    = Returned (low :: rest) ->
  StringToBigInt low = Some 0 ->
  checkForCRMToken w walletAddress h
    = (Returned false,
       h ++ [ EvConnect None;
              EvCallContract (balanceOf CRM_TOKEN_ADDRESS walletAddress);
              EvAlert crm_alert ])
  /\ forall high more hi,
       rest = high :: more -> StringToBigInt high = Some hi -> 0 < hi ->
       0 < u256 0 hi
       /\ fst (checkForCRMToken w walletAddress h) = Returned false.
Proof.
  intros Hdev Hc Hw Ha Hr Hz.
  pose proof (checkForCRMToken_run w walletAddress h conn wl acc low rest 0
                Hdev Hc Hw Ha Hr Hz) as E.
  cbn [Z.ltb Z.compare app] in E. split; [exact E|].
  intros high more hi _ _ Hhi. rewrite E. split; [unfold u256; lia|reflexivity].
Qed.

Lemma checkForCRMToken_reads_first_word_only_witness :
  let w := world_with (Returned sample_connection)
             (crm_reads ["0x0"%string; "0x1"%string]) false in
  checkForCRMToken w (VString "0x123") []
    = (Returned false,
       [ EvConnect None;
         EvCallContract (balanceOf CRM_TOKEN_ADDRESS (VString "0x123"));
         EvAlert crm_alert ])
  /\ forall high more hi,
       ["0x1"%string] = high :: more -> StringToBigInt high = Some hi -> 0 < hi ->
       0 < u256 0 hi
       /\ fst (checkForCRMToken w (VString "0x123") []) = Returned false.
Proof.
  apply (checkForCRMToken_reads_first_word_only
           (world_with (Returned sample_connection)
              (crm_reads ["0x0"%string; "0x1"%string]) false)
           (VString "0x123") [] sample_connection sample_wallet sample_account
           "0x0"%string ["0x1"%string]); reflexivity.
Defined.

(* ---------------------------------------------------------------- C5 *)

(** Every way a run of [connectWallet] can end once [connect] has produced a
    wallet and [enable] has resolved, leaving the wallet as [wl']. *)
Lemma connectWallet_run (w : World) (h : history) (conn : Connection) (wl wl' : Wallet) :
  let h1 := h ++ [EvConsoleLog [connecting]] in
  let h2 := h1 ++ [EvConnect (Some connect_options)] in
  let h3 := h2 ++ [EvEnable] in
  let failed e :=
    (Thrown e, h3 ++ [EvConsoleError [LStr "Error connecting wallet:"; LStr (message e)]]) in
  let connected a :=
    (Returned a,
     h3 ++ [EvConsoleLog [LStr "Wallet successfully connected. Address:"; LVal a]]) in
  connect w h1 (Some connect_options) = Returned conn ->
  wallet conn = Some wl ->
  enable w h2 wl = Returned wl' ->
  connectWallet w h
  = if truthy (selectedAddress wl') then connected (selectedAddress wl')
    else match account wl' with
         | None => failed (TypeError "Cannot read properties of undefined (reading 'address')")
         | Some acc =>
             if truthy (address acc) then connected (address acc)
             else failed (Error "No wallet address found")
         end.
Proof.
  intros h1 h2 h3 failed connected Hc Hw He.
  unfold connectWallet, selected_or_account_address. run.
  fold connecting. fold h1. rewrite Hc. cbn beta iota. rewrite Hw.
  fold h2. rewrite He. cbn beta iota. fold h3.
  destruct (truthy (selectedAddress wl')) eqn:Hs.
  - cbn beta iota. rewrite Hs. reflexivity.
  - destruct (account wl') as [acc|]; cbn beta iota; [|reflexivity].
    destruct (truthy (address acc)); reflexivity.
Qed.

(** The part of C5 that the code does implement: the selected address when
    truthy, else the account's address, else "No wallet address found" when
    the account is there but has no address either. *)
Lemma connectWallet_resolves_address
    (w : World) (h : history) (conn : Connection) (wl wl' : Wallet) :
  let h1 := h ++ [EvConsoleLog [connecting]] in
  let h2 := h1 ++ [EvConnect (Some connect_options)] in
  connect w h1 (Some connect_options) = Returned conn ->
  wallet conn = Some wl ->
  enable w h2 wl = Returned wl' ->
  (truthy (selectedAddress wl') = true ->
     fst (connectWallet w h) = Returned (selectedAddress wl'))
  /\ (forall acc, truthy (selectedAddress wl') = false -> account wl' = Some acc ->
        truthy (address acc) = true ->
        fst (connectWallet w h) = Returned (address acc))
  /\ (forall acc, truthy (selectedAddress wl') = false -> account wl' = Some acc ->
        truthy (address acc) = false ->
        fst (connectWallet w h) = Thrown (Error "No wallet address found")).
Proof.
  intros h1 h2 Hc Hw He.
  rewrite (connectWallet_run w h conn wl wl' Hc Hw He).
  repeat split.
  - intros ->. reflexivity.
  - intros acc -> -> ->. reflexivity.
  - intros acc -> -> ->. reflexivity.
Qed.

(** C5 at the wallet without an [account] object: with no selected address
    either, [connectWallet] fails with a TypeError raised by reading
    [address] off the missing account, not with "No wallet address found". *)
Theorem connectWallet_missing_account
    (w : World) (h : history) (conn : Connection) (wl wl' : Wallet) :
  let h1 := h ++ [EvConsoleLog [connecting]] in
  let h2 := h1 ++ [EvConnect (Some connect_options)] in
  connect w h1 (Some connect_options) = Returned conn ->
  wallet conn = Some wl ->
  enable w h2 wl = Returned wl' ->
  truthy (selectedAddress wl') = false ->
  account wl' = None ->
  fst (connectWallet w h)
    = Thrown (TypeError "Cannot read properties of undefined (reading 'address')")
  /\ fst (connectWallet w h) <> Thrown (Error "No wallet address found").
Proof.
  intros h1 h2 Hc Hw He Hs Ha.
  rewrite (connectWallet_run w h conn wl wl' Hc Hw He), Hs, Ha. cbn [fst].
  split; [reflexivity|discriminate].
Qed.

Lemma connectWallet_missing_account_witness :
  let w := world_with (Returned bare_connection) test_reads false in
  fst (connectWallet w [])
    = Thrown (TypeError "Cannot read properties of undefined (reading 'address')")
  /\ fst (connectWallet w []) <> Thrown (Error "No wallet address found").
Proof.
  exact (connectWallet_missing_account
           (world_with (Returned bare_connection) test_reads false)
           [] bare_connection bare_wallet bare_wallet
           eq_refl eq_refl eq_refl eq_refl eq_refl).
Defined.

(* ---------------------------------------------------------------- C8 *)

(** C8. [getBalances] always returns normally. With a falsy wallet id it does
    nothing at all: no call leaves the function, so no balance fetch and no
    callback. With a truthy one, an error of the balance fetch or of the
    callback is logged with console.error and not thrown again. *)
Theorem getBalances_never_rejects
    (w : World) (ETH_ADDRESS USDC_ADDRESS STRK_ADDRESS : string)
    (walletId : value) (setBalances : callback) (h : history) :
  let getBalances := getBalances w ETH_ADDRESS USDC_ADDRESS STRK_ADDRESS in
  let getTokenBalances := getTokenBalances w ETH_ADDRESS USDC_ADDRESS STRK_ADDRESS in
  let logged e := EvConsoleError [LStr "Error fetching user balances:"; LErr e] in
  fst (getBalances walletId setBalances h) = Returned tt
  /\ (truthy walletId = false -> getBalances walletId setBalances h = (Returned tt, h))
  /\ (truthy walletId = true ->
      forall e h', getTokenBalances walletId h = (Thrown e, h') ->
        getBalances walletId setBalances h = (Returned tt, h' ++ [logged e]))
  /\ (truthy walletId = true ->
      forall eth usdc strk e h',
        getTokenBalances walletId h
          = (Returned {| ETH := VString eth; USDC := VString usdc; STRK := VString strk |}, h') ->
        setBalances h' (entry_list eth usdc strk) = Thrown e ->
        getBalances walletId setBalances h
          = (Returned tt, h' ++ [EvSetBalances (entry_list eth usdc strk); logged e])).
Proof.
  intros getBalances getTokenBalances logged. subst getBalances getTokenBalances logged.
  destruct (truthy walletId) eqn:Ht.
  - destruct (getBalances_run w ETH_ADDRESS USDC_ADDRESS STRK_ADDRESS walletId setBalances h Ht)
      as (evs & Hs & _ & Hr).
    destruct (WalletService.getTokenBalances w ETH_ADDRESS USDC_ADDRESS STRK_ADDRESS walletId h)
      as [[data|e] h1] eqn:Hg; cbn [fst snd] in *; subst h1.
    + destruct Hr as (eth & usdc & strk & -> & Hr). rewrite Hr.
      split; [reflexivity|]. split; [discriminate|]. split.
      * intros _ e h' [=].
      * intros _ eth' usdc' strk' e h' [= <- <- <- <-] Hcb. rewrite Hcb.
        rewrite <- app_assoc. reflexivity.
    + rewrite Hr. split; [reflexivity|]. split; [discriminate|]. split.
      * intros _ e' h' [= <- <-]. rewrite <- app_assoc. reflexivity.
      * intros _ eth usdc strk e' h' [=].
  - assert (E : WalletService.getBalances w ETH_ADDRESS USDC_ADDRESS STRK_ADDRESS
                  walletId setBalances h = (Returned tt, h)).
    { unfold WalletService.getBalances. rewrite Ht. reflexivity. }
    rewrite E. split; [reflexivity|]. split; [reflexivity|]. split; discriminate.
Qed.

(* --------------------------------------------------------------- C10 *)

(** C10. A successful [getTokenBalances] has a string in each of ETH, USDC and
    STRK. Hence a run of [getBalances] invokes the callback at most once, and
    what it passes is the list of exactly three entries ETH, USDC, STRK, in
    that order, whose balances are those three strings: no field is
    [undefined], so the '0.00' default is not taken. *)
Theorem getBalances_callback_entries
    (w : World) (ETH_ADDRESS USDC_ADDRESS STRK_ADDRESS : string)
    (walletId : value) (setBalances : callback) (h : history) :
  let getBalances := getBalances w ETH_ADDRESS USDC_ADDRESS STRK_ADDRESS in
  let getTokenBalances := getTokenBalances w ETH_ADDRESS USDC_ADDRESS STRK_ADDRESS in
  (forall walletAddress h0 data,
      fst (getTokenBalances walletAddress h0) = Returned data ->
      exists eth usdc strk,
        data = {| ETH := VString eth; USDC := VString usdc; STRK := VString strk |})
  /\ exists evs,
       snd (getBalances walletId setBalances h) = h ++ evs
       /\ (count is_setBalances evs <= 1)%nat
       /\ forall balances, In (EvSetBalances balances) evs ->
            exists eth usdc strk,
              fst (getTokenBalances walletId h)
                = Returned {| ETH := VString eth; USDC := VString usdc; STRK := VString strk |}
              /\ balances = entry_list eth usdc strk
              /\ List.length balances = 3%nat
              /\ List.map title balances = ["ETH"; "USDC"; "STRK"]%string
              /\ List.map icon balances = [IconETH; IconUSDC; IconSTRK].
Proof.
  intros getBalances getTokenBalances. subst getBalances getTokenBalances. split.
  - intros walletAddress h0 data Hd.
    destruct (getTokenBalances_outcome w ETH_ADDRESS USDC_ADDRESS STRK_ADDRESS walletAddress h0)
      as (evs & _ & _ & Hf).
    rewrite Hd in Hf. exact Hf.
  - destruct (truthy walletId) eqn:Ht.
    + destruct (getBalances_run w ETH_ADDRESS USDC_ADDRESS STRK_ADDRESS walletId setBalances h Ht)
        as (evs & Hs & Hn & Hr).
      destruct (fst (WalletService.getTokenBalances w ETH_ADDRESS USDC_ADDRESS STRK_ADDRESS
                       walletId h)) as [data|e] eqn:Hg.
      * destruct Hr as (eth & usdc & strk & -> & Hr). rewrite Hr. cbn [snd].
        eexists. split; [reflexivity|]. split.
        { rewrite !count_app, Hn.
          destruct (setBalances (h ++ evs) (entry_list eth usdc strk)); cbn; lia. }
        intros balances Hin.
        apply in_app_or in Hin as [Hin|Hin].
        { apply (count_zero_In _ _ _ Hn) in Hin. discriminate Hin. }
        assert (Hb : balances = entry_list eth usdc strk).
        { destruct Hin as [[= <-]|Hin]; [reflexivity|].
          destruct (setBalances (h ++ evs) (entry_list eth usdc strk)) as [u|e].
          - destruct Hin.
          - destruct Hin as [Hin|[]]. discriminate Hin. }
        subst balances. exists eth, usdc, strk. repeat split.
      * rewrite Hr. cbn [snd]. eexists. split; [reflexivity|]. split.
        { rewrite count_app, Hn. cbn. lia. }
        intros balances Hin. apply in_app_or in Hin as [Hin|Hin].
        { apply (count_zero_In _ _ _ Hn) in Hin. discriminate Hin. }
        destruct Hin as [Hin|[]]. discriminate Hin.
    + exists []. unfold WalletService.getBalances. rewrite Ht. cbn [negb snd ret].
      split; [rewrite List.app_nil_r; reflexivity|]. split; [cbn; lia|].
      intros balances [].
Qed.

(* ===================================================================== *)
(** * Further properties of the services *)
(* ===================================================================== *)

(** Brings a run's final history to the form [h ++ new] and reads off [new]. *)
Ltac since :=
  cbn [fst snd]; rewrite <- ?app_assoc; cbn [app]; rewrite ?events_since_app.

Lemma last_event_app (h : history) (ev : event) : last_event (h ++ [ev]) = Some ev.
Proof.
  unfold last_event. rewrite map_app. cbn [map]. apply last_last.
Qed.

Lemma last_event_shift (h : history) (a b : event) (rest : list event) :
  last_event (h ++ a :: b :: rest) = last_event ((h ++ [a]) ++ b :: rest).
Proof. f_equal. rewrite <- app_assoc. reflexivity. Qed.

(** Finds the last event of a history written [h ++ [a; ...; z]]. *)
Ltac last_ev := cbn [app]; rewrite ?last_event_shift; apply last_event_app.

Section CRMRuns.

Variable w : World.
Variable walletAddress : value.
Variable h : history.

Abbreviation crm_run := (checkForCRMToken w walletAddress h).
Abbreviation crm_call := (balanceOf CRM_TOKEN_ADDRESS walletAddress).

(** Every run of [checkForCRMToken] outside development mode: it ends either
    with a boolean, after the connect and the read, the alert being there
    exactly for [false]; or with an error, logged last, after the connect and
    at most the read. *)
Lemma checkForCRMToken_outcomes :
  is_dev w = false ->
  (exists b : bool, crm_run
     = (Returned b,
        h ++ [EvConnect None; EvCallContract crm_call]
          ++ (if b then [] else [EvAlert crm_alert])))
  \/ (exists e : exn, crm_run = (Thrown e, h ++ [EvConnect None; crm_logged e]))
  \/ (exists e : exn, crm_run
        = (Thrown e, h ++ [EvConnect None; EvCallContract crm_call; crm_logged e])).
Proof.
  intros Hdev. unfold checkForCRMToken, account_callContract, BigInt_first, crm_logged.
  rewrite Hdev. run.
  destruct (connect w h None) as [conn|e]; cbn beta iota;
    [|right; left; eexists; rewrite <- app_assoc; reflexivity].
  destruct (wallet conn) as [wl|]; cbn beta iota;
    [|right; left; eexists; rewrite <- app_assoc; reflexivity].
  destruct (account wl) as [acc|]; cbn beta iota;
    [|right; left; eexists; rewrite <- app_assoc; reflexivity].
  destruct (callContract w (h ++ [EvConnect None]) crm_call) as [[|word rest]|e];
    cbn beta iota;
    try (right; right; eexists; rewrite <- !app_assoc; reflexivity).
  destruct (StringToBigInt word) as [z|]; cbn beta iota;
    [|right; right; eexists; rewrite <- !app_assoc; reflexivity].
  left. destruct (Number_gt_zero (Number_of_string (BigInt_toString z)));
    [exists true | exists false]; rewrite <- !app_assoc; reflexivity.
Qed.

(** X1. In every world and at every wallet address, the alert of
    [checkForCRMToken] goes with the answer [false] and with nothing else: a
    run that returns [false] has raised exactly one alert, and a run that
    returns [true] or throws has raised none. *)
Theorem checkForCRMToken_alert_iff_false :
  count is_alert (events_since h (snd crm_run))
  = match fst crm_run with
    | Returned false => 1%nat
    | _ => 0%nat
    end.
Proof.
  destruct (is_dev w) eqn:Hdev.
  - rewrite (checkForCRMToken_dev_mode w walletAddress h Hdev). since. reflexivity.
  - destruct (checkForCRMToken_outcomes Hdev) as [(b & E)|[(e & E)|(e & E)]];
      rewrite E; since; [destruct b|..]; reflexivity.
Qed.

(** X2. Outside development mode, a run of [checkForCRMToken] that throws has
    written the error to console.error as its last action, after one connect
    and at most one contract read, and has logged nothing else as an error:
    the caller gets the very error that was logged. *)
Theorem checkForCRMToken_error_logged (e : exn) :
  is_dev w = false ->
  fst crm_run = Thrown e ->
  last_event (snd crm_run) = Some (crm_logged e)
  /\ count is_console_error (events_since h (snd crm_run)) = 1%nat
  /\ count is_connect (events_since h (snd crm_run)) = 1%nat
  /\ (count is_call_contract (events_since h (snd crm_run)) <= 1)%nat.
Proof.
  intros Hdev Hthrown.
  destruct (checkForCRMToken_outcomes Hdev) as [(b & E)|[(e' & E)|(e' & E)]];
    rewrite E in *; cbn [fst] in Hthrown; try discriminate Hthrown;
    injection Hthrown as ->; cbn [snd]; rewrite events_since_app;
    (split; [last_ev|cbn; repeat split; lia]).
Qed.

(** X3. The only contract [checkForCRMToken] ever reads is the CRM token:
    every contract call of a run is [balanceOf] on [CRM_TOKEN_ADDRESS] with
    the given wallet address as its single argument, and a run makes at most
    one such call and never enables a wallet, deploys or posts. *)
Theorem checkForCRMToken_reads_crm_only :
  (forall c, In (EvCallContract c) (events_since h (snd crm_run)) ->
     contractAddress c = CRM_TOKEN_ADDRESS
     /\ entrypoint c = "balanceOf"%string
     /\ calldata c = [walletAddress])
  /\ (count is_call_contract (events_since h (snd crm_run)) <= 1)%nat
  /\ count is_enable (events_since h (snd crm_run)) = 0%nat
  /\ count is_deploy (events_since h (snd crm_run)) = 0%nat
  /\ count is_http_post (events_since h (snd crm_run)) = 0%nat.
Proof.
  assert (Hin : forall c (evs : list event),
            (forall ev, In ev evs -> is_call_contract ev = true -> ev = EvCallContract crm_call) ->
            In (EvCallContract c) evs ->
            contractAddress c = CRM_TOKEN_ADDRESS
            /\ entrypoint c = "balanceOf"%string /\ calldata c = [walletAddress]).
  { intros c evs Hall Hc. specialize (Hall _ Hc eq_refl). injection Hall as ->.
    repeat split. }
  destruct (is_dev w) eqn:Hdev.
  - rewrite (checkForCRMToken_dev_mode w walletAddress h Hdev). since.
    split; [|cbn; repeat split; lia].
    intros c [H|[]]. discriminate H.
  - destruct (checkForCRMToken_outcomes Hdev) as [(b & E)|[(e & E)|(e & E)]];
      rewrite E; since; (split; [|try destruct b; cbn; repeat split; lia]);
      intros c; apply Hin; try destruct b; cbn [app In];
      intros ev Hev Hk;
      repeat (destruct Hev as [<-|Hev]; try discriminate Hk; try reflexivity);
      destruct Hev.
Qed.

(** X4. A failed connection fails [checkForCRMToken] before any contract
    read: outside development mode, when [connect()] rejects, or resolves
    without a wallet, the run throws that error ("Wallet not connected" in
    the second case) after the connect and the console.error line alone. *)
Theorem checkForCRMToken_connection_failure (e : exn) :
  is_dev w = false ->
  connection_fails w h e ->
  crm_run = (Thrown e, h ++ [EvConnect None; crm_logged e]).
Proof.
  intros Hdev Hf. unfold checkForCRMToken, crm_logged. rewrite Hdev. run.
  destruct Hf as [Hc|(conn & Hc & Hw & ->)]; rewrite Hc; cbn beta iota;
    rewrite ?Hw; rewrite <- app_assoc; reflexivity.
Qed.

(** X5. Development mode is switched on by the exact string "true" and by
    nothing else: with [REACT_APP_IS_DEV] equal to "true" the function
    returns [true] without calling the connector, and with any other value,
    or none, it calls [connect()] exactly once. *)
Theorem checkForCRMToken_dev_flag_exact :
  (REACT_APP_IS_DEV w = Some "true"%string ->
     crm_run
     = (Returned true,
        h ++ [EvConsoleLog [LStr "Development mode: Skipping CRM token check."]])
     /\ count is_connector_call (events_since h (snd crm_run)) = 0%nat)
  /\ (REACT_APP_IS_DEV w <> Some "true"%string ->
      count is_connect (events_since h (snd crm_run)) = 1%nat).
Proof.
  split.
  - intros Henv.
    assert (Hdev : is_dev w = true) by (unfold is_dev; rewrite Henv; reflexivity).
    rewrite (checkForCRMToken_dev_mode w walletAddress h Hdev). since.
    split; reflexivity.
  - intros Henv.
    assert (Hdev : is_dev w = false).
    { unfold is_dev. destruct (REACT_APP_IS_DEV w) as [s|]; [|reflexivity].
      destruct (String.eqb_spec s "true"); [subst; contradiction|reflexivity]. }
    destruct (checkForCRMToken_outcomes Hdev) as [(b & E)|[(e & E)|(e & E)]];
      rewrite E; since; try destruct b; reflexivity.
Qed.

End CRMRuns.

Section ConnectRuns.

Variable w : World.
Variable h : history.

Abbreviation cw_run := (connectWallet w h).
Abbreviation cw_start := ([EvConsoleLog [connecting]; EvConnect (Some connect_options)]).

(** Every run of [connectWallet]: the log line and the connect, then either a
    rejection of the connect, or the missing wallet, or [enable()], and after
    it either a rejection or the address, truthy, logged and returned. *)
Lemma connectWallet_outcomes :
  (exists a, truthy a = true
     /\ cw_run
        = (Returned a,
           h ++ cw_start
             ++ [EvEnable;
                 EvConsoleLog [LStr "Wallet successfully connected. Address:"; LVal a]]))
  \/ (exists e, cw_run = (Thrown e, h ++ cw_start ++ [connect_logged e]))
  \/ cw_run
     = (Thrown (Error "Failed to connect to wallet"),
        h ++ cw_start
          ++ [EvConsoleError [LStr "No wallet found"];
              connect_logged (Error "Failed to connect to wallet")])
  \/ (exists e, cw_run = (Thrown e, h ++ cw_start ++ [EvEnable; connect_logged e])).
Proof.
  destruct (connect w (h ++ [EvConsoleLog [connecting]]) (Some connect_options))
    as [conn|e] eqn:Hc.
  - destruct (wallet conn) as [wl|] eqn:Hw.
    + destruct (enable w ((h ++ [EvConsoleLog [connecting]])
                            ++ [EvConnect (Some connect_options)]) wl) as [wl'|e] eqn:He.
      * rewrite (connectWallet_run w h conn wl wl' Hc Hw He). cbv zeta.
        destruct (truthy (selectedAddress wl')) eqn:Hs.
        { left. eexists. split; [exact Hs|]. rewrite <- !app_assoc. reflexivity. }
        destruct (account wl') as [acc|].
        { destruct (truthy (address acc)) eqn:Ha.
          - left. eexists. split; [exact Ha|]. rewrite <- !app_assoc. reflexivity.
          - right; right; right. eexists. rewrite <- !app_assoc. reflexivity. }
        right; right; right. eexists. rewrite <- !app_assoc. reflexivity.
      * right; right; right. exists e.
        unfold connectWallet. run. fold connecting. rewrite Hc. cbn beta iota.
        rewrite Hw, He. rewrite <- !app_assoc. reflexivity.
    + right; right; left.
      unfold connectWallet. run. fold connecting. rewrite Hc. cbn beta iota.
      rewrite Hw. rewrite <- !app_assoc. reflexivity.
  - right; left. exists e.
    unfold connectWallet. run. fold connecting. rewrite Hc.
    rewrite <- !app_assoc. reflexivity.
Qed.

(** X6. [connectWallet] never returns a falsy address: whatever the connector
    and the wallet answer, a value it returns is truthy (so never undefined,
    null or the empty string). *)
Theorem connectWallet_returns_truthy (a : value) :
  fst cw_run = Returned a -> truthy a = true.
Proof.
  destruct connectWallet_outcomes as [(a' & Ht & E)|[(e & E)|[E|(e & E)]]];
    rewrite E; cbn [fst]; intros [= <-] || intros [=]. exact Ht.
Qed.

(** X7. A run of [connectWallet] that throws has written
    "Error connecting wallet:" with the message of that error to
    console.error as its last action. *)
Theorem connectWallet_error_logged (e : exn) :
  fst cw_run = Thrown e ->
  last_event (snd cw_run) = Some (connect_logged e).
Proof.
  destruct connectWallet_outcomes as [(a' & Ht & E)|[(e' & E)|[E|(e' & E)]]];
    rewrite E; cbn [fst snd]; intros [= <-] || intros [=]; last_ev.
Qed.

(** X8. Every run of [connectWallet] starts by logging and then calls
    [connect] exactly once, with the options
    [{include: ['argentX', 'braavos'], modalMode: 'alwaysAsk', modalTheme: 'light'}];
    it enables the wallet at most once and never reads a contract. *)
Theorem connectWallet_calls :
  (exists rest, events_since h (snd cw_run) = cw_start ++ rest)
  /\ count is_connect (events_since h (snd cw_run)) = 1%nat
  /\ (count is_enable (events_since h (snd cw_run)) <= 1)%nat
  /\ count is_call_contract (events_since h (snd cw_run)) = 0%nat.
Proof.
  destruct connectWallet_outcomes as [(a' & Ht & E)|[(e' & E)|[E|(e' & E)]]];
    rewrite E; cbn [snd]; rewrite events_since_app;
    (split; [eexists; reflexivity|cbn; repeat split; lia]).
Qed.

(** X9. Without a wallet [connectWallet] does not go on: when [connect]
    resolves with no wallet it logs "No wallet found", throws
    "Failed to connect to wallet" and has neither enabled anything nor read
    an address. *)
Theorem connectWallet_without_wallet (conn : Connection) :
  connect w (h ++ [EvConsoleLog [connecting]]) (Some connect_options) = Returned conn ->
  wallet conn = None ->
  cw_run
  = (Thrown (Error "Failed to connect to wallet"),
     h ++ cw_start
       ++ [EvConsoleError [LStr "No wallet found"];
           connect_logged (Error "Failed to connect to wallet")])
  /\ count is_enable (events_since h (snd cw_run)) = 0%nat.
Proof.
  intros Hc Hw.
  assert (E : cw_run
              = (Thrown (Error "Failed to connect to wallet"),
                 h ++ cw_start
                   ++ [EvConsoleError [LStr "No wallet found"];
                       connect_logged (Error "Failed to connect to wallet")])).
  { unfold connectWallet. run. fold connecting. rewrite Hc. cbn beta iota.
    rewrite Hw. rewrite <- !app_assoc. reflexivity. }
  rewrite E. cbn [snd]. rewrite events_since_app. split; reflexivity.
Qed.

(** X10. A rejection of [wallet.enable()] reaches the caller of
    [connectWallet] unchanged, and after it no address is looked up: the run
    ends with the console.error line right after the enable. *)
Theorem connectWallet_enable_rejects (conn : Connection) (wl : Wallet) (e : exn) :
  let h1 := h ++ [EvConsoleLog [connecting]] in
  let h2 := h1 ++ [EvConnect (Some connect_options)] in
  connect w h1 (Some connect_options) = Returned conn ->
  wallet conn = Some wl ->
  enable w h2 wl = Thrown e ->
  cw_run = (Thrown e, h ++ cw_start ++ [EvEnable; connect_logged e]).
Proof.
  intros h1 h2 Hc Hw He. subst h1 h2.
  unfold connectWallet. run. fold connecting. rewrite Hc. cbn beta iota.
  rewrite Hw, He. rewrite <- !app_assoc. reflexivity.
Qed.

End ConnectRuns.

(** ** Formatted balances are never the failure value *)

Lemma Number_toString_large_length m e :
  (2 <= String.length (Number_toString_large m e))%nat.
Proof.
  unfold Number_toString_large.
  destruct (shortest_digits 20 1 (S754_finite false m e) (integer_value m e)) as [s n].
  rewrite string_length_app. cbn [String.length append]. lia.
Qed.

Lemma fixed_digits_length n :
  (2 <= String.length (fixed_digits n 4))%nat.
Proof.
  pose proof (fixed_digits_fraction n 4 ltac:(lia)) as H.
  destruct (fixed_digits n 4) as [|c [|c' s]]; cbn [String.length]; try lia.
  - discriminate H.
  - exfalso. unfold fraction_digits_are in H. cbn [split_at_point] in H.
    destruct (Ascii.eqb c "-"); cbn [split_at_point] in H.
    + discriminate H.
    + destruct (Ascii.eqb c "."); [|discriminate H].
      cbn in H. discriminate H.
Qed.

(** [toFixed(4)] never produces the one-character string "0". *)
Lemma toFixed_not_zero x : toFixed x 4 <> "0"%string.
Proof.
  destruct x as [s|s| |s m e]; cbn [toFixed].
  - intros H. pose proof (fixed_digits_length 0) as L. rewrite H in L. cbn in L. lia.
  - destruct s; discriminate.
  - discriminate.
  - intros H.
    assert (L : (2 <= String.length
                        ((if s then "-" else "")
                           ++ (if SFleb ten21 (S754_finite false m e)
                               then Number_toString_large m e
                               else fixed_digits (scaled_round m e 4) 4)))%nat).
    { rewrite string_length_app.
      pose proof (Number_toString_large_length m e).
      pose proof (fixed_digits_length (scaled_round m e 4)).
      destruct (SFleb ten21 (S754_finite false m e)); lia. }
    destruct (SFleb ten21 (S754_finite false m e)); rewrite H in L; cbn in L; lia.
Qed.

Section BalanceRuns.

Variable w : World.
Variables ETH_ADDRESS USDC_ADDRESS STRK_ADDRESS : string.
Variable walletAddress : value.

Abbreviation gtb := (getTokenBalance w USDC_ADDRESS).
Abbreviation gtbs := (getTokenBalances w ETH_ADDRESS USDC_ADDRESS STRK_ADDRESS walletAddress).
Abbreviation gb := (getBalances w ETH_ADDRESS USDC_ADDRESS STRK_ADDRESS).

(** X11. [getTokenBalance] returns "0" exactly when the read failed, that is
    when the world gives no integer to it: a read that gives one is formatted
    by [toFixed(4)], which never yields "0" (a zero balance is "0.0000"), so
    the failure value cannot be mistaken for a balance that was read. *)
Theorem getTokenBalance_zero_iff_read_failed
    (wl : Wallet) (tokenAddress : string) (h : history) :
  fst (gtb wl walletAddress tokenAddress h) = Returned (VString "0")
  <-> exists e, balance_read w wl walletAddress tokenAddress h = Thrown e.
Proof.
  rewrite getTokenBalance_exact. cbn [fst]. unfold read_string.
  destruct (balance_read w wl walletAddress tokenAddress h) as [z|e].
  - split.
    + intros [= H]. exfalso. exact (toFixed_not_zero _ H).
    + intros (e & He). discriminate He.
  - split; [intros _; exists e; reflexivity|reflexivity].
Qed.

(** With an account to call, a read is one contract call followed by one
    console line. *)
Lemma getTokenBalance_with_account wl acc tokenAddress h :
  account wl = Some acc ->
  exists s ev,
    gtb wl walletAddress tokenAddress h
    = (Returned (VString s),
       h ++ [EvCallContract (balanceOf tokenAddress walletAddress); ev])
    /\ is_call_contract ev = false.
Proof.
  intros Ha. unfold getTokenBalance, account_callContract, BigInt_first. run.
  rewrite Ha. cbn beta iota.
  destruct (callContract w h (balanceOf tokenAddress walletAddress)) as [[|word rest]|e];
    cbn beta iota;
    try (eexists; eexists; split; [rewrite <- app_assoc; reflexivity|reflexivity]).
  destruct (StringToBigInt word) as [z|]; cbn beta iota;
    eexists; eexists; (split; [rewrite <- app_assoc; reflexivity|reflexivity]).
Qed.

(** Without one, it is the console.error line alone, and the result is "0". *)
Lemma getTokenBalance_without_account wl tokenAddress h :
  account wl = None ->
  gtb wl walletAddress tokenAddress h
  = (Returned (VString "0"),
     h ++ [fetch_logged tokenAddress
             (TypeError "Cannot read properties of undefined (reading 'callContract')")]).
Proof.
  intros Ha. unfold getTokenBalance, account_callContract. run. rewrite Ha. reflexivity.
Qed.

(** X12. With a connected wallet that has an account, [getTokenBalances]
    issues exactly three contract reads, in the order ETH, USDC, STRK, each
    one [balanceOf] with the wallet address as its only argument, whatever
    the earlier reads answered: a failing read does not stop the later ones. *)
Theorem getTokenBalances_reads_in_order
    (h : history) (conn : Connection) (wl : Wallet) (acc : Account) :
  connect w h None = Returned conn ->
  wallet conn = Some wl ->
  account wl = Some acc ->
  List.filter is_call_contract (events_since h (snd (gtbs h)))
  = [ EvCallContract (balanceOf ETH_ADDRESS walletAddress);
      EvCallContract (balanceOf USDC_ADDRESS walletAddress);
      EvCallContract (balanceOf STRK_ADDRESS walletAddress) ].
Proof.
  intros Hc Hw Ha. unfold getTokenBalances. run. rewrite Hc, Hw. cbn beta iota.
  destruct (getTokenBalance_with_account wl acc ETH_ADDRESS (h ++ [EvConnect None]) Ha)
    as (s1 & ev1 & E1 & K1).
  rewrite E1. cbn beta iota.
  match goal with
  | |- context [WalletService.getTokenBalance _ _ _ _ USDC_ADDRESS ?h2] =>
      destruct (getTokenBalance_with_account wl acc USDC_ADDRESS h2 Ha)
        as (s2 & ev2 & E2 & K2)
  end.
  rewrite E2. cbn beta iota.
  match goal with
  | |- context [WalletService.getTokenBalance _ _ _ _ STRK_ADDRESS ?h3] =>
      destruct (getTokenBalance_with_account wl acc STRK_ADDRESS h3 Ha)
        as (s3 & ev3 & E3 & K3)
  end.
  rewrite E3. since. cbn [filter is_call_contract]. rewrite K1, K2, K3. reflexivity.
Qed.

(** X13. With a connected wallet that has no [account], [getTokenBalances]
    still resolves: all three balances are "0", no contract is read, and each
    token's TypeError is written to console.error. *)
Theorem getTokenBalances_without_account
    (h : history) (conn : Connection) (wl : Wallet) :
  connect w h None = Returned conn ->
  wallet conn = Some wl ->
  account wl = None ->
  let missing := TypeError "Cannot read properties of undefined (reading 'callContract')" in
  gtbs h
  = (Returned {| ETH := VString "0"; USDC := VString "0"; STRK := VString "0" |},
     h ++ [ EvConnect None;
            fetch_logged ETH_ADDRESS missing;
            fetch_logged USDC_ADDRESS missing;
            fetch_logged STRK_ADDRESS missing ]).
Proof.
  intros Hc Hw Ha missing. unfold getTokenBalances. run. rewrite Hc, Hw. cbn beta iota.
  rewrite !(getTokenBalance_without_account wl _ _ Ha). cbn beta iota.
  rewrite <- !app_assoc. reflexivity.
Qed.

(** The run of [getTokenBalances] on a failed connection. *)
Lemma getTokenBalances_connection_failure_run h e :
  connection_fails w h e ->
  gtbs h = (Thrown e, h ++ [EvConnect None; balances_logged e]).
Proof.
  intros Hf. unfold getTokenBalances, balances_logged. run.
  destruct Hf as [Hc|(conn & Hc & Hw & ->)]; rewrite Hc; cbn beta iota;
    rewrite ?Hw; rewrite <- app_assoc; reflexivity.
Qed.

(** X14. [getTokenBalances] throws [e] exactly when the connection fails with
    [e] ([connect()] rejects with it, or resolves without a wallet and [e] is
    "Wallet not connected"); it then has logged [e] once and read no
    contract. *)
Theorem getTokenBalances_throws_iff_connection_fails (h : history) (e : exn) :
  (fst (gtbs h) = Thrown e <-> connection_fails w h e)
  /\ (connection_fails w h e ->
      events_since h (snd (gtbs h)) = [EvConnect None; balances_logged e]).
Proof.
  split; [split|].
  - intros Ht. unfold connection_fails.
    destruct (connect w h None) as [conn|e'] eqn:Hc.
    + destruct (wallet conn) as [wl|] eqn:Hw.
      * destruct (getTokenBalances_run w ETH_ADDRESS USDC_ADDRESS STRK_ADDRESS
                    walletAddress h conn wl Hc Hw)
          as (eth & usdc & strk & evs2 & evs3 & evs4 & _ & _ & _ & _ & _ & _ & _ & Hr).
        cbv zeta in Hr. rewrite Hr in Ht. discriminate Ht.
      * right. exists conn. split; [reflexivity|]. split; [exact Hw|].
        rewrite (getTokenBalances_connection_failure_run h (Error "Wallet not connected"))
          in Ht.
        -- injection Ht as <-. reflexivity.
        -- right. exists conn. repeat split; assumption.
    + left. rewrite (getTokenBalances_connection_failure_run h e') in Ht.
      * injection Ht as <-. reflexivity.
      * left. exact Hc.
  - intros Hf. rewrite (getTokenBalances_connection_failure_run h e Hf). reflexivity.
  - intros Hf. rewrite (getTokenBalances_connection_failure_run h e Hf). since. reflexivity.
Qed.

(** X15. When the connection fails, [getBalances] (on a truthy wallet id)
    never invokes its callback: it returns normally after the error has been
    logged twice, by [getTokenBalances] and by [getBalances] itself. *)
Theorem getBalances_connection_failure
    (walletId : value) (setBalances : callback) (h : history) (e : exn) :
  truthy walletId = true ->
  connection_fails w h e ->
  getBalances w ETH_ADDRESS USDC_ADDRESS STRK_ADDRESS walletId setBalances h
  = (Returned tt, h ++ [EvConnect None; balances_logged e; user_balances_logged e]).
Proof.
  intros Ht Hf. unfold getBalances. rewrite Ht. cbn [negb]. run.
  unfold getTokenBalances, balances_logged, user_balances_logged. run.
  destruct Hf as [Hc|(conn & Hc & Hw & ->)]; rewrite Hc; cbn beta iota;
    rewrite ?Hw; rewrite <- !app_assoc; reflexivity.
Qed.

(** X16. With a truthy wallet id and a connected wallet, [getBalances]
    invokes its callback exactly once, whatever the three reads answer, and
    passes it the balances [getTokenBalances] resolved to for that id. *)
Theorem getBalances_invokes_callback_once
    (walletId : value) (setBalances : callback) (h : history)
    (conn : Connection) (wl : Wallet) :
  truthy walletId = true ->
  connect w h None = Returned conn ->
  wallet conn = Some wl ->
  exists eth usdc strk,
    fst (getTokenBalances w ETH_ADDRESS USDC_ADDRESS STRK_ADDRESS walletId h)
      = Returned {| ETH := VString eth; USDC := VString usdc; STRK := VString strk |}
    /\ List.filter is_setBalances
         (events_since h (snd (gb walletId setBalances h)))
       = [EvSetBalances (entry_list eth usdc strk)].
Proof.
  intros Ht Hc Hw.
  destruct (getBalances_run w ETH_ADDRESS USDC_ADDRESS STRK_ADDRESS walletId setBalances h Ht)
    as (evs & Hs & Hn & Hr).
  destruct (getTokenBalances_run w ETH_ADDRESS USDC_ADDRESS STRK_ADDRESS
              walletId h conn wl Hc Hw)
    as (eth & usdc & strk & evs2 & evs3 & evs4 & _ & _ & _ & _ & _ & _ & _ & Hg).
  cbv zeta in Hg. rewrite Hg in Hr, Hs |- *. cbn [fst snd] in Hr, Hs |- *.
  destruct Hr as (eth' & usdc' & strk' & [= <- <- <-] & Hr).
  exists eth, usdc, strk. split; [reflexivity|].
  rewrite Hr. cbn [snd]. rewrite events_since_app.
  rewrite !filter_app.
  assert (Hz : filter is_setBalances evs = []).
  { unfold count in Hn. destruct (filter is_setBalances evs); [reflexivity|discriminate Hn]. }
  rewrite Hz. cbn [filter is_setBalances app].
  destruct (setBalances (h ++ evs) (entry_list eth usdc strk)); reflexivity.
Qed.

End BalanceRuns.

Section DeployRuns.

Variable w : World.
Variable walletId : value.
Variable h : history.

Abbreviation dc_payload := (getDeployContractData w walletId).

(** Every run of [deployContract]: it stops at the first step that fails,
    and returns only after the connect, the deployment and the wait. *)
Lemma deployContract_outcomes (h0 : history) :
  (exists t a,
     deployContract w walletId h0
     = (Returned {| transactionHash := t; contractAddress_ := a |},
        h0 ++ [EvConnect None; EvDeployContract dc_payload; EvWaitForTransaction t]))
  \/ (exists e, deployContract w walletId h0 = (Thrown e, h0 ++ [EvConnect None]))
  \/ (exists e, deployContract w walletId h0
                = (Thrown e, h0 ++ [EvConnect None; EvDeployContract dc_payload]))
  \/ (exists e t,
        deployContract w walletId h0
        = (Thrown e,
           h0 ++ [EvConnect None; EvDeployContract dc_payload; EvWaitForTransaction t])).
Proof.
  unfold deployContract, account_deployContract, account_waitForTransaction. run.
  destruct (connect w h0 None) as [conn|e]; cbn beta iota;
    [|right; left; eexists; reflexivity].
  destruct (isConnected conn); cbn [negb]; [|right; left; eexists; reflexivity].
  destruct (conn_account conn) as [acc|]; cbn beta iota;
    [|right; left; eexists; reflexivity].
  destruct (deployContract_rpc w (h0 ++ [EvConnect None]) dc_payload) as [[t a]|e];
    cbn beta iota; [|right; right; left; eexists; rewrite <- app_assoc; reflexivity].
  cbn [transaction_hash contract_address].
  destruct (waitForTransaction w ((h0 ++ [EvConnect None]) ++ [EvDeployContract dc_payload]) t)
    as [[]|e]; cbn beta iota.
  - left. exists t, a. rewrite <- !app_assoc. reflexivity.
  - right; right; right. exists e, t. rewrite <- !app_assoc. reflexivity.
Qed.

(** X17. [deployContract] returns only after the transaction it reports has
    been waited for: a run that returns [{transactionHash, contractAddress}]
    made exactly the calls connect, [deployContract] with the payload built
    for that wallet id, and [waitForTransaction(transactionHash)], in this
    order. *)
Theorem deployContract_returns_after_wait (d : Deployment) :
  fst (deployContract w walletId h) = Returned d ->
  events_since h (snd (deployContract w walletId h))
  = [ EvConnect None;
      EvDeployContract (getDeployContractData w walletId);
      EvWaitForTransaction (transactionHash d) ].
Proof.
  destruct (deployContract_outcomes h) as [(t & a & E)|[(e & E)|[(e & E)|(e & t & E)]]];
    rewrite E; cbn [fst snd]; intros [= <-] || intros [=].
  rewrite events_since_app. reflexivity.
Qed.

Abbreviation cad_run := (checkAndDeployContract w walletId h).
Abbreviation cad_get := (EvHttpGet (check_user_url walletId)).

(** Every run of [checkAndDeployContract]. *)
Lemma checkAndDeployContract_outcomes :
  cad_run = (Returned tt, h ++ [cad_get])
  \/ (exists e pre,
        cad_run = (Thrown e, h ++ cad_get :: pre ++ [status_logged e])
        /\ count is_http_post pre = 0%nat
        /\ count is_console_error pre = 0%nat)
  \/ (exists t a tail,
        snd cad_run
        = h ++ [ cad_get; EvConnect None; EvDeployContract dc_payload;
                 EvWaitForTransaction t;
                 EvHttpPost update_user_contract_url
                   {| wallet_id := walletId; upd_contract_address := a |} ] ++ tail
        /\ ((fst cad_run = Returned tt /\ tail = [])
            \/ exists e, fst cad_run = Thrown e /\ tail = [status_logged e])).
Proof.
  unfold checkAndDeployContract, status_logged. run.
  destruct (http_get w h (check_user_url walletId)) as [r|e]; cbn beta iota.
  - destruct (is_contract_deployed r); [left; reflexivity|].
    destruct (deployContract_outcomes (h ++ [cad_get]))
      as [(t & a & E)|[(e & E)|[(e & E)|(e & t & E)]]]; rewrite E; cbn beta iota.
    + right; right. cbn [contractAddress_].
      exists t, a.
      match goal with
      | |- context [http_post w ?h4 ?u ?b] => destruct (http_post w h4 u b) as [[]|e]
      end; cbn [fst snd].
      * exists []. split; [rewrite <- !app_assoc; reflexivity|]. left. split; reflexivity.
      * eexists. split; [rewrite <- !app_assoc; reflexivity|]. right. eexists.
        split; reflexivity.
    + right; left. exists e, [EvConnect None].
      split; [rewrite <- !app_assoc; reflexivity|]. split; reflexivity.
    + right; left. exists e, [EvConnect None; EvDeployContract dc_payload].
      split; [rewrite <- !app_assoc; reflexivity|]. split; reflexivity.
    + right; left.
      exists e, [EvConnect None; EvDeployContract dc_payload; EvWaitForTransaction t].
      split; [rewrite <- !app_assoc; reflexivity|]. split; reflexivity.
  - right; left. exists e, []. split; [rewrite <- !app_assoc; reflexivity|].
    split; reflexivity.
Qed.


(** X19. The backend is told about a contract only once its deployment has
    been waited for: a run of [checkAndDeployContract] posts at most once,
    and a run that posts has before that made exactly the calls GET, connect,
    [deployContract(payload)] and [waitForTransaction], in this order. *)
Theorem checkAndDeployContract_posts_after_wait :
  (count is_http_post (events_since h (snd cad_run)) <= 1)%nat
  /\ (forall url body, In (EvHttpPost url body) (events_since h (snd cad_run)) ->
        url = update_user_contract_url
        /\ wallet_id body = walletId
        /\ exists t tail,
             events_since h (snd cad_run)
             = [ cad_get; EvConnect None;
                 EvDeployContract (getDeployContractData w walletId);
                 EvWaitForTransaction t;
                 EvHttpPost url body ] ++ tail).
Proof.
  destruct checkAndDeployContract_outcomes
    as [E|[(e' & pre & E & Hp & Hl)|(t & a & tail & Hs & Ht)]].
  - rewrite E. since. split; [cbn; lia|]. intros url body [H|[]]. discriminate H.
  - rewrite E. cbn [snd]. rewrite events_since_app.
    change (cad_get :: pre ++ [status_logged e'])
      with ([cad_get] ++ pre ++ [status_logged e']).
    split; [rewrite !count_app, Hp; cbn; lia|].
    intros url body Hin. exfalso.
    apply in_app_or in Hin as [[H|[]]|Hin]; [discriminate H|].
    apply in_app_or in Hin as [Hin|[H|[]]]; [|discriminate H].
    apply (count_zero_In _ _ _ Hp) in Hin. discriminate Hin.
  - rewrite Hs, events_since_app.
    assert (Htail : forall url b, In (EvHttpPost url b) tail -> False).
    { intros url b Hin. destruct Ht as [[_ ->]|(e' & _ & ->)]; [destruct Hin|].
      destruct Hin as [H|[]]. discriminate H. }
    split.
    + destruct Ht as [[_ ->]|(e' & _ & ->)]; cbn; lia.
    + intros url b Hin. cbn [app In] in Hin.
      destruct Hin as [H|[H|[H|[H|[H|Hin]]]]]; try discriminate H.
      * injection H as <- <-.
        split; [reflexivity|]. split; [reflexivity|]. exists t, tail. reflexivity.
      * exfalso. exact (Htail _ _ Hin).
Qed.

End DeployRuns.

(** ** Runs that meet the hypotheses *)

Lemma no_wallet_fails : connection_fails no_wallet_world [] (Error "Wallet not connected").
Proof. right. exists no_wallet. repeat split. Defined.

Lemma checkForCRMToken_error_logged_witness :
  let run := checkForCRMToken no_wallet_world (VString "0x123") [] in
  last_event (snd run) = Some (crm_logged (Error "Wallet not connected"))
  /\ count is_console_error (events_since [] (snd run)) = 1%nat
  /\ count is_connect (events_since [] (snd run)) = 1%nat
  /\ (count is_call_contract (events_since [] (snd run)) <= 1)%nat.
Proof.
  exact (checkForCRMToken_error_logged no_wallet_world (VString "0x123") []
           (Error "Wallet not connected") eq_refl eq_refl).
Defined.

Lemma checkForCRMToken_connection_failure_witness :
  checkForCRMToken no_wallet_world (VString "0x123") []
  = (Thrown (Error "Wallet not connected"),
     [EvConnect None; crm_logged (Error "Wallet not connected")]).
Proof.
  exact (checkForCRMToken_connection_failure no_wallet_world (VString "0x123") []
           (Error "Wallet not connected") eq_refl no_wallet_fails).
Defined.

Lemma connectWallet_returns_truthy_witness : truthy (VString "0x123") = true.
Proof. exact (connectWallet_returns_truthy ok_world [] (VString "0x123") eq_refl). Defined.

Lemma connectWallet_error_logged_witness :
  last_event (snd (connectWallet no_wallet_world []))
  = Some (connect_logged (Error "Failed to connect to wallet")).
Proof.
  exact (connectWallet_error_logged no_wallet_world []
           (Error "Failed to connect to wallet") eq_refl).
Defined.

Lemma connectWallet_without_wallet_witness :
  connectWallet no_wallet_world []
  = (Thrown (Error "Failed to connect to wallet"),
     [ EvConsoleLog [connecting]; EvConnect (Some connect_options);
       EvConsoleError [LStr "No wallet found"];
       connect_logged (Error "Failed to connect to wallet") ])
  /\ count is_enable (events_since [] (snd (connectWallet no_wallet_world []))) = 0%nat.
Proof.
  exact (connectWallet_without_wallet no_wallet_world [] no_wallet eq_refl eq_refl).
Defined.

Lemma connectWallet_enable_rejects_witness :
  connectWallet enable_fails []
  = (Thrown (Error "Connection failed"),
     [ EvConsoleLog [connecting]; EvConnect (Some connect_options); EvEnable;
       connect_logged (Error "Connection failed") ]).
Proof.
  exact (connectWallet_enable_rejects enable_fails [] sample_connection sample_wallet
           (Error "Connection failed") eq_refl eq_refl eq_refl).
Defined.

(** X20. After a successful connect and enable, [connectWallet] returns the
    wallet's [selectedAddress] when it is truthy, without looking at the
    account (which may be missing); otherwise, when the wallet has an account
    object, it returns [account.address] if that is truthy and throws
    "No wallet address found" if it is falsy. *)
Theorem connectWallet_address_precedence
    (w : World) (h : history) (conn : Connection) (wl wl' : Wallet) :
  let h1 := h ++ [EvConsoleLog [connecting]] in
  let h2 := h1 ++ [EvConnect (Some connect_options)] in
  connect w h1 (Some connect_options) = Returned conn ->
  wallet conn = Some wl ->
  enable w h2 wl = Returned wl' ->
  (truthy (selectedAddress wl') = true ->
     fst (connectWallet w h) = Returned (selectedAddress wl'))
  /\ (forall acc, truthy (selectedAddress wl') = false -> account wl' = Some acc ->
        truthy (address acc) = true ->
        fst (connectWallet w h) = Returned (address acc))
  /\ (forall acc, truthy (selectedAddress wl') = false -> account wl' = Some acc ->
        truthy (address acc) = false ->
        fst (connectWallet w h) = Thrown (Error "No wallet address found")).
Proof.
  intros h1 h2 Hc Hw He.
  rewrite (connectWallet_run w h conn wl wl' Hc Hw He).
  split; [|split].
  - intros Hs. rewrite Hs. reflexivity.
  - intros acc Hs Ha Ht. rewrite Hs, Ha, Ht. reflexivity.
  - intros acc Hs Ha Ht. rewrite Hs, Ha, Ht. reflexivity.
Qed.

Lemma connectWallet_address_precedence_witness :
  (truthy (selectedAddress sample_wallet) = true ->
     fst (connectWallet ok_world []) = Returned (selectedAddress sample_wallet))
  /\ (forall acc, truthy (selectedAddress sample_wallet) = false ->
        account sample_wallet = Some acc -> truthy (address acc) = true ->
        fst (connectWallet ok_world []) = Returned (address acc))
  /\ (forall acc, truthy (selectedAddress sample_wallet) = false ->
        account sample_wallet = Some acc -> truthy (address acc) = false ->
        fst (connectWallet ok_world []) = Thrown (Error "No wallet address found")).
Proof.
  exact (connectWallet_address_precedence ok_world [] sample_connection sample_wallet
           sample_wallet eq_refl eq_refl eq_refl).
Defined.

Lemma getTokenBalances_reads_in_order_witness :
  List.filter is_call_contract
    (events_since []
       (snd (getTokenBalances usdc_fails_world eth_address usdc_address strk_address
               (VString "0x123") [])))
  = [ EvCallContract (balanceOf eth_address (VString "0x123"));
      EvCallContract (balanceOf usdc_address (VString "0x123"));
      EvCallContract (balanceOf strk_address (VString "0x123")) ].
Proof.
  exact (getTokenBalances_reads_in_order usdc_fails_world
           eth_address usdc_address strk_address (VString "0x123") []
           sample_connection sample_wallet sample_account eq_refl eq_refl eq_refl).
Defined.

Lemma getTokenBalances_without_account_witness :
  let missing := TypeError "Cannot read properties of undefined (reading 'callContract')" in
  getTokenBalances bare_world eth_address usdc_address strk_address (VString "0x123") []
  = (Returned {| ETH := VString "0"; USDC := VString "0"; STRK := VString "0" |},
     [ EvConnect None;
       fetch_logged eth_address missing;
       fetch_logged usdc_address missing;
       fetch_logged strk_address missing ]).
Proof.
  exact (getTokenBalances_without_account bare_world
           eth_address usdc_address strk_address (VString "0x123") []
           bare_connection bare_wallet eq_refl eq_refl eq_refl).
Defined.

Lemma getBalances_connection_failure_witness :
  getBalances no_wallet_world eth_address usdc_address strk_address
    (VString "0x123") ok_callback []
  = (Returned tt,
     [ EvConnect None;
       balances_logged (Error "Wallet not connected");
       user_balances_logged (Error "Wallet not connected") ]).
Proof.
  exact (getBalances_connection_failure no_wallet_world
           eth_address usdc_address strk_address (VString "0x123") ok_callback []
           (Error "Wallet not connected") eq_refl no_wallet_fails).
Defined.

Lemma getBalances_invokes_callback_once_witness :
  exists eth usdc strk,
    fst (getTokenBalances usdc_fails_world eth_address usdc_address strk_address
           (VString "0x123") [])
      = Returned {| ETH := VString eth; USDC := VString usdc; STRK := VString strk |}
    /\ List.filter is_setBalances
         (events_since []
            (snd (getBalances usdc_fails_world eth_address usdc_address strk_address
                    (VString "0x123") ok_callback [])))
       = [EvSetBalances (entry_list eth usdc strk)].
Proof.
  exact (getBalances_invokes_callback_once usdc_fails_world
           eth_address usdc_address strk_address (VString "0x123") ok_callback []
           sample_connection sample_wallet eq_refl eq_refl eq_refl).
Defined.

Lemma deployContract_returns_after_wait_witness :
  events_since [] (snd (deployContract ok_world (VString "0x123") []))
  = [ EvConnect None;
      EvDeployContract (getDeployContractData ok_world (VString "0x123"));
      EvWaitForTransaction (VString "0xabc") ].
Proof.
  exact (deployContract_returns_after_wait ok_world (VString "0x123") []
           {| transactionHash := VString "0xabc"; contractAddress_ := VString "0xdef" |}
           eq_refl).
Defined.

